(** * ssh-manager: a shallow embedding of [main.py] and its properties

    The program is a small command-line tool: [refresh] downloads a list of
    SSH shortcuts from a remote database and stores it as a JSON file,
    [list] shows the stored shortcuts, asks for one and runs its command.

    The embedding follows the Python source function by function.  Python
    values that come out of [json] are an inductive type, dictionaries are
    association lists in insertion order, exceptions are an error type, and
    the methods of [SSHConnectionManager] are computations in a state and
    exception monad whose state holds the object's field, the config file,
    the standard input still to be read and the trace of observable actions. *)

From Stdlib Require Import ZArith List String Ascii Bool Lia Permutation.
From Stdlib Require Import DecimalString.
From Stdlib Require Import Floats.SpecFloat.
Import ListNotations.

Set Warnings "-register-all".
Local Open Scope string_scope.
Local Open Scope Z_scope.

(** ** Python values and JSON documents *)

(** The values [json.load] and [response.json()] produce.  A [dict] keeps
    its items in insertion order; a Python float is a binary64 number. *)
Inductive pyval : Type :=
| PNone
| PBool (b : bool)
| PInt (z : Z)
| PFloat (f : spec_float)
| PStr (s : string)
| PList (l : list pyval)
| PDict (m : list (string * pyval)).

(** A JSON document as the [json] module reads it from a file or from a
    response body: the members of an object in textual order, a name
    possibly repeated, the numbers by their value.  Whitespace, escapes and
    the spelling of numbers are not part of a document, and a text the
    module cannot read (it is not JSON, or it is nested more deeply than
    the interpreter allows) has no document. *)
Inductive json : Type :=
| JNull
| JBool (b : bool)
| JInt (z : Z)
| JFloat (f : spec_float)
| JStr (s : string)
| JArr (l : list json)
| JObj (ms : list (string * json)).

Definition dict := list (string * pyval).

(** [d.get(k)] on the items of a dict. *)
Fixpoint dict_get (k : string) (m : dict) : option pyval :=
  match m with
  | [] => None
  | (k', v) :: m' => if String.eqb k k' then Some v else dict_get k m'
  end.

(** [d[k] = v]: an existing key keeps its position and takes the new value,
    a new key goes to the end. *)
Fixpoint dict_set (k : string) (v : pyval) (m : dict) : dict :=
  match m with
  | [] => [(k, v)]
  | (k', v') :: m' =>
      if String.eqb k k' then (k, v) :: m' else (k', v') :: dict_set k v m'
  end.

Definition dict_keys (m : dict) : list string := map fst m.
Definition dict_values (m : dict) : list pyval := map snd m.

(** [json.load]: arrays become lists, objects become dicts built member by
    member, so that a repeated name keeps its first position and its last
    value. *)
Fixpoint json_load (d : json) : pyval :=
  match d with
  | JNull => PNone
  | JBool b => PBool b
  | JInt z => PInt z
  | JFloat f => PFloat f
  | JStr s => PStr s
  | JArr l => PList (map json_load l)
  | JObj ms =>
      PDict (fold_left
               (fun (acc : dict) (kv : string * json) =>
                  let (k, x) := kv in dict_set k (json_load x) acc)
               ms [])
  end.

(** [json.dump]: the document of a value, the items of a dict in order. *)
Fixpoint json_dump (v : pyval) : json :=
  match v with
  | PNone => JNull
  | PBool b => JBool b
  | PInt z => JInt z
  | PFloat f => JFloat f
  | PStr s => JStr s
  | PList l => JArr (map json_dump l)
  | PDict m =>
      JObj (map (fun kv : string * pyval => let (k, x) := kv in (k, json_dump x)) m)
  end.

(** Truth value of a Python object ([if x:]). *)
Definition py_truthy (v : pyval) : bool :=
  match v with
  | PNone => false
  | PBool b => b
  | PInt z => negb (z =? 0)
  | PFloat (S754_zero _) => false
  | PFloat _ => true
  | PStr s => negb (String.eqb s "")
  | PList l => match l with [] => false | _ => true end
  | PDict m => match m with [] => false | _ => true end
  end.

(** ** Exceptions *)

(** The exception classes the program can meet.  Only the exceptions that
    come from the environment carry their text. *)
Inductive exn : Type :=
| AttributeError
| TypeError
| KeyError
| IndexError
| ValueError
| EOFError
| KeyboardInterrupt
| RequestException (msg : string)
| IOError (msg : string)
| OtherException (msg : string).

Definition result (A : Type) : Type := (exn + A)%type.

Definition rbind {A B : Type} (r : result A) (k : A -> result B) : result B :=
  match r with
  | inl e => inl e
  | inr a => k a
  end.

Declare Scope result_scope.
Delimit Scope result_scope with result.
Notation "x <- r ;; k" := (rbind r (fun x => k))
  (at level 61, r at next level, right associativity) : result_scope.

(** ** Operations of the Python data model the program uses *)

(** [v.get(k, default)]: only a dict has the method. *)
Definition py_get (v : pyval) (k : string) (default : pyval) : result pyval :=
  match v with
  | PDict m => inr (match dict_get k m with Some x => x | None => default end)
  | _ => inl AttributeError
  end.

(** [v[k]] for a string [k]. *)
Definition py_getitem (v : pyval) (k : string) : result pyval :=
  match v with
  | PDict m => match dict_get k m with Some x => inr x | None => inl KeyError end
  | _ => inl TypeError
  end.

(** [v[0]]. *)
Definition py_index0 (v : pyval) : result pyval :=
  match v with
  | PList (x :: _) => inr x
  | PList [] => inl IndexError
  | PStr (String c _) => inr (PStr (String c ""))
  | PStr EmptyString => inl IndexError
  | PDict _ => inl KeyError
  | _ => inl TypeError
  end.

Definition lower_ascii (c : ascii) : ascii :=
  let n := nat_of_ascii c in
  if ((65 <=? n) && (n <=? 90))%nat then ascii_of_nat (n + 32) else c.

(** [str.lower] on ASCII text: the letters A to Z are mapped, every other
    character is left as it is.  On a str with cased letters outside ASCII
    Python maps those too; such strings are outside the model. *)
Fixpoint lower (s : string) : string :=
  match s with
  | EmptyString => EmptyString
  | String c s' => String (lower_ascii c) (lower s')
  end.

(** [v.lower()]: only a str has the method. *)
Definition py_lower (v : pyval) : result string :=
  match v with
  | PStr s => inr (lower s)
  | _ => inl AttributeError
  end.

Fixpoint chars (s : string) : list pyval :=
  match s with
  | EmptyString => []
  | String c s' => PStr (String c "") :: chars s'
  end.

(** [for x in v]: the elements of a list, the keys of a dict, the
    characters of a str. *)
Definition py_iter (v : pyval) : result (list pyval) :=
  match v with
  | PList l => inr l
  | PDict m => inr (map (fun kv => PStr (fst kv)) m)
  | PStr s => inr (chars s)
  | _ => inl TypeError
  end.

(** [l[i]] on a list, a negative index counting from the end. *)
Definition py_list_index {A : Type} (l : list A) (i : Z) : result A :=
  let n := Z.of_nat (List.length l) in
  let j := if i <? 0 then i + n else i in
  if (j <? 0) || (n <=? j) then inl IndexError
  else match nth_error l (Z.to_nat j) with
       | Some x => inr x
       | None => inl IndexError
       end.

(** *** [int(s)] on a line of input

    Surrounding white space (tab, line feed, vertical tab, form feed,
    carriage return, space) is dropped, one sign is allowed, and the rest
    is decimal digits with single underscores between digits, at most 4300
    digits (the default limit of the interpreter).  The model is [int] on
    ASCII text; on a str with characters outside ASCII Python also accepts
    other decimal digits and spaces, and the statements that depend on a
    line being refused ask for [is_ascii]. *)

Definition is_space (c : ascii) : bool :=
  let n := nat_of_ascii c in
  (((9 <=? n) && (n <=? 13)) || (n =? 32))%nat.

Definition is_digit (c : ascii) : bool :=
  let n := nat_of_ascii c in ((48 <=? n) && (n <=? 57))%nat.

(** Every character is below 128. *)
Fixpoint is_ascii (s : string) : bool :=
  match s with
  | EmptyString => true
  | String c s' => (nat_of_ascii c <? 128)%nat && is_ascii s'
  end.

(** The default of [sys.get_int_max_str_digits()]. *)
Definition max_str_digits : Z := 4300.

Definition digit_of (c : ascii) : option Z :=
  let n := nat_of_ascii c in
  if ((48 <=? n) && (n <=? 57))%nat then Some (Z.of_nat (n - 48)) else None.

Fixpoint drop_spaces (l : list ascii) : list ascii :=
  match l with
  | c :: l' => if is_space c then drop_spaces l' else l
  | [] => []
  end.

Definition strip (l : list ascii) : list ascii :=
  rev (drop_spaces (rev (drop_spaces l))).

(** The digits after the first one: [acc] is the value read so far. *)
Fixpoint digits_from (acc : Z) (l : list ascii) : option Z :=
  match l with
  | [] => Some acc
  | c :: l' =>
      match digit_of c with
      | Some d => digits_from (10 * acc + d) l'
      | None =>
          if Ascii.eqb c "_"%char then
            match l' with
            | c' :: l'' =>
                match digit_of c' with
                | Some d => digits_from (10 * acc + d) l''
                | None => None
                end
            | [] => None
            end
          else None
      end
  end.

Definition digits (l : list ascii) : option Z :=
  match l with
  | c :: l' =>
      match digit_of c with
      | Some d => digits_from d l'
      | None => None
      end
  | [] => None
  end.

(** The digits of a literal, with the limit on their number. *)
Definition limited_digits (l : list ascii) : option Z :=
  if max_str_digits <? Z.of_nat (List.length (filter is_digit l)) then None
  else digits l.

Definition parse_int (s : string) : option Z :=
  match strip (list_ascii_of_string s) with
  | c :: l =>
      if Ascii.eqb c "-"%char then option_map Z.opp (limited_digits l)
      else if Ascii.eqb c "+"%char then limited_digits l
      else limited_digits (c :: l)
  | [] => None
  end.

Definition py_int (s : string) : result Z :=
  match parse_int s with
  | Some z => inr z
  | None => inl ValueError
  end.

(** [str(z)] for an int. *)
Definition str_of_int (z : Z) : string := NilZero.string_of_int (Z.to_int z).

(** ** The world the program runs in *)

(** What the program does that can be seen from outside, in order. *)
Inductive event : Type :=
| EPrint (text : string)                               (* print(text) *)
| ETable (headers : list string) (rows : list (list pyval))
                                                       (* print(tabulate(rows, headers)) *)
| EInput (prompt : string)                             (* input(prompt) *)
| ESystem (cmd : string).                              (* os.system(cmd) *)

(** What the terminal answers to one [input()]. *)
Inductive stdin_item : Type :=
| Line (s : string)
| CtrlC
| EndOfInput.

(** The config file: missing, holding a text [json.load] reads as a
    document, or holding a text on which [json.load] raises a ValueError
    because it is not JSON (which includes a file cut short by a failed
    write).  The field [disk] of the state follows what the program itself
    does to the file; what a command started by [os.system] does to it is
    outside the model. *)
Inductive file : Type :=
| FileAbsent
| FileJson (d : json)
| FileMalformed.

(** The state a method runs in: the object's field [self.connections], the
    config file, the input still to come and the trace so far. *)
Record state : Type := mkState {
  connections : pyval;
  disk : file;
  stdin : list stdin_item;
  trace : list event
}.

(** What the network does to the one request of [refresh].  A body is
    either one [response.json()] reads as a document, or one on which it
    raises a ValueError. *)
Inductive http_body : Type :=
| BodyJson (d : json)
| BodyNotJson.

Record response : Type := mkResponse {
  status_code : Z;
  error_text : string;   (* the text of the HTTPError built for this response *)
  body : http_body
}.

Inductive http_outcome : Type :=
| PostRaises (msg : string)      (* requests.post raised a RequestException *)
| PostReturns (r : response).

(** What the file system does to the one write of [refresh]. *)
Inductive write_outcome : Type :=
| WriteOk
| OpenFails (msg : string)       (* open(..., 'w') raised IOError: file untouched *)
| WriteFails (msg : string)      (* IOError after the file was opened and truncated *)
| DumpRaises (msg : string).     (* another exception after the file was opened *)

(** ** The state and exception monad *)

Definition M (A : Type) : Type := state -> result A * state.

Definition ret {A : Type} (a : A) : M A := fun st => (inr a, st).

Definition bind {A B : Type} (m : M A) (k : A -> M B) : M B :=
  fun st =>
    match m st with
    | (inl e, st') => (inl e, st')
    | (inr a, st') => k a st'
    end.

Definition raise {A : Type} (e : exn) : M A := fun st => (inl e, st).

Definition lift {A : Type} (r : result A) : M A := fun st => (r, st).

(** [try: m  except ...: h]: the handler [h] says which exceptions it takes
    and what it does with them, a state change made before the exception
    stays. *)
Definition try_except {A : Type} (m : M A) (h : exn -> option (M A)) : M A :=
  fun st =>
    match m st with
    | (inl e, st') =>
        match h e with
        | Some k => k st'
        | None => (inl e, st')
        end
    | r => r
    end.

Declare Scope prog_scope.
Delimit Scope prog_scope with prog.
Notation "x <- m ;; k" := (bind m (fun x => k))
  (at level 61, m at next level, right associativity) : prog_scope.
Notation "m ;; k" := (bind m (fun _ => k))
  (at level 61, right associativity) : prog_scope.

Definition emit (e : event) : M unit :=
  fun st => (inr tt, mkState (connections st) (disk st) (stdin st) (trace st ++ [e])%list).

Definition print (text : string) : M unit := emit (EPrint text).

Definition get_connections : M pyval := fun st => (inr (connections st), st).

Definition set_connections (v : pyval) : M unit :=
  fun st => (inr tt, mkState v (disk st) (stdin st) (trace st)).

Definition get_disk : M file := fun st => (inr (disk st), st).

Definition set_disk (f : file) : M unit :=
  fun st => (inr tt, mkState (connections st) f (stdin st) (trace st)).

(** [input(prompt)]: the prompt is shown, then a line is read; an
    interrupt raises KeyboardInterrupt and the end of the input EOFError. *)
Definition input (prompt : string) : M string :=
  fun st =>
    let tr := (trace st ++ [EInput prompt])%list in
    match stdin st with
    | Line s :: rest => (inr s, mkState (connections st) (disk st) rest tr)
    | CtrlC :: rest => (inl KeyboardInterrupt, mkState (connections st) (disk st) rest tr)
    | EndOfInput :: rest => (inl EOFError, mkState (connections st) (disk st) rest tr)
    | [] => (inl EOFError, mkState (connections st) (disk st) [] tr)
    end.

(** A NUL character in a command. *)
Fixpoint has_nul (s : string) : bool :=
  match s with
  | EmptyString => false
  | String c s' => (nat_of_ascii c =? 0)%nat || has_nul s'
  end.

(** [os.system(v)]: the argument must be a str, and a str with a NUL
    character is refused with a ValueError before anything is run.  The
    event records that the command was handed to the shell; what the
    command then does is outside the model. *)
Definition os_system (v : pyval) : M unit :=
  match v with
  | PStr cmd => if has_nul cmd then raise ValueError else emit (ESystem cmd)
  | _ => raise TypeError
  end.

(** The colour codes of colorama. *)
Definition esc : string := String (ascii_of_nat 27) "[".
Definition RED : string := esc ++ "31m".
Definition GREEN : string := esc ++ "32m".
Definition YELLOW : string := esc ++ "33m".
Definition CYAN : string := esc ++ "36m".
Definition RESET_ALL : string := esc ++ "0m".
Definition nl : string := String (ascii_of_nat 10) "".

(** ** The program *)

Section Manager.

(** [str()] of a float, a list or a dict is not written out: the program is
    modelled for any such function. *)
Variable py_repr : pyval -> string.

(** [f"{v}"]. *)
Definition py_str (v : pyval) : string :=
  match v with
  | PStr s => s
  | PNone => "None"
  | PBool true => "True"
  | PBool false => "False"
  | PInt z => str_of_int z
  | _ => py_repr v
  end.

(** *** [load_config] *)

(** A file that is not JSON makes [json.load] raise JSONDecodeError, a
    ValueError. *)
Definition load_config : M unit :=
  (f <- get_disk ;;
   match f with
   | FileJson d => set_connections (json_load d)
   | FileMalformed => raise ValueError
   | FileAbsent => set_connections (PDict [])
   end)%prog.

(** [__init__]. *)
Definition init : M unit :=
  (set_connections (PDict []) ;; load_config)%prog.

(** *** [refresh] *)

(** [requests.post(...)]. *)
Definition requests_post (net : http_outcome) : M response :=
  match net with
  | PostRaises msg => raise (RequestException msg)
  | PostReturns r => ret r
  end.

(** [response.raise_for_status()]: requests raises HTTPError, a
    RequestException, for the status codes 400 to 599 and for no other. *)
Definition raise_for_status (r : response) : M unit :=
  if (400 <=? status_code r) && (status_code r <? 600)
  then raise (RequestException (error_text r))
  else ret tt.

(** [response.json()]: a body that is not JSON raises a ValueError. *)
Definition response_json (r : response) : result pyval :=
  match body r with
  | BodyJson d => inr (json_load d)
  | BodyNotJson => inl ValueError
  end.

(** The title or rich-text field [prop] of a page, lines 67-68, 70-71 and
    76-77 of the source. *)
Definition extract_text (properties : pyval) (prop seq : string) : result pyval :=
  (p <- py_get properties prop (PDict []) ;;
   property <- py_get p seq (PList []) ;;
   if py_truthy property then
     first <- py_index0 property ;;
     text <- py_get first "text" (PDict []) ;;
     py_get text "content" (PStr "")
   else inr (PStr ""))%result.

(** The select field, lines 73-74. *)
Definition extract_type (properties : pyval) : result string :=
  (p <- py_get properties "Type" (PDict []) ;;
   type_property <- py_get p "select" (PDict []) ;;
   if py_truthy type_property then
     name <- py_get type_property "name" (PStr "") ;;
     py_lower name
   else inr "")%result.

(** The four fields of one page, in the order the source reads them. *)
Record fields : Type := mkFields {
  f_project : pyval;
  f_ssh : pyval;
  f_type : string;
  f_password : pyval
}.

Definition extract_fields (page : pyval) : result fields :=
  (properties <- py_get page "properties" (PDict []) ;;
   project <- extract_text properties "Project" "title" ;;
   ssh <- extract_text properties "SSH" "rich_text" ;;
   type_ <- extract_type properties ;;
   password <- extract_text properties "password" "rich_text" ;;
   inr (mkFields project ssh type_ password))%result.

(** [f"{project}@{type_}"]. *)
Definition connection_key (f : fields) : string :=
  py_str (f_project f) ++ "@" ++ f_type f.

Definition connection_record (f : fields) : pyval :=
  PDict [("type", PStr (f_type f)); ("project", f_project f);
         ("ssh_command", f_ssh f); ("password", f_password f)].

(** The loop of lines 63-88 over the pages still to come, [acc] being the
    dict built so far. *)
Fixpoint build_connections (pages : list pyval) (acc : dict) : result dict :=
  match pages with
  | [] => inr acc
  | page :: rest =>
      (f <- extract_fields page ;;
       build_connections rest (dict_set (connection_key f) (connection_record f) acc))%result
  end.

(** The [with open(...)] block of lines 92-93. *)
Definition write_config (wr : write_outcome) (v : pyval) : M unit :=
  match wr with
  | WriteOk => set_disk (FileJson (json_dump v))
  | OpenFails msg => raise (IOError msg)
  | WriteFails msg => (set_disk FileMalformed ;; raise (IOError msg))%prog
  | DumpRaises msg => (set_disk FileMalformed ;; raise (OtherException msg))%prog
  end.

(** [str(e)]; the text of the exceptions the interpreter raises itself is
    not modelled (no handler that prints it can receive one, see
    [write_config_raises]). *)
Definition exn_text (e : exn) : string :=
  match e with
  | RequestException msg | IOError msg | OtherException msg => msg
  | _ => ""
  end.

Definition refresh (net : http_outcome) (wr : write_outcome) : M unit :=
  (fetched <- try_except
                (response <- requests_post net ;;
                 raise_for_status response ;;
                 ret (Some response))
                (fun e =>
                   match e with
                   | RequestException msg =>
                       Some (print (RED ++ "Error: Failed to fetch data from Notion. " ++ msg) ;;
                             ret None)
                   | _ => None
                   end) ;;
   match fetched with
   | None => ret tt
   | Some response =>
       parsed <- try_except
                   (results <- lift (j <- response_json response ;;
                                     py_get j "results" (PList []))%result ;;
                    ret (Some results))
                   (fun e =>
                      match e with
                      | ValueError =>
                          Some (print (RED ++ "Error: Failed to decode JSON response from Notion.") ;;
                                ret None)
                      | _ => None
                      end) ;;
       match parsed with
       | None => ret tt
       | Some results =>
           conns <- lift (pages <- py_iter results ;;
                          build_connections pages [])%result ;;
           try_except
             (write_config wr (PDict conns) ;;
              set_connections (PDict conns) ;;
              print (GREEN ++ "Data updated successfully!"))
             (fun e =>
                match e with
                | IOError msg | RequestException msg =>   (* RequestException is an IOError *)
                    Some (print (RED ++ "Error: Failed to write to the configuration file. " ++ msg))
                | KeyboardInterrupt => None
                | _ => Some (print (RED ++ "Unexpected error: " ++ exn_text e))
                end)
       end
   end)%prog.

(** *** [list_connections] *)

(** [self.connections.items()]: only a dict has the method. *)
Definition py_items (v : pyval) : result dict :=
  match v with
  | PDict m => inr m
  | _ => inl AttributeError
  end.

Definition table_headers : list string :=
  ["No"; "Project"; "Type"; "SSH Command"; "Password"].

(** The loop of lines 104-111: one row per item, numbered from [idx]. *)
Fixpoint build_table (items : dict) (idx : Z) : result (list (list pyval)) :=
  match items with
  | [] => inr []
  | (name, details) :: rest =>
      (project <- py_getitem details "project" ;;
       ssh_command <- py_getitem details "ssh_command" ;;
       connection_type <- py_getitem details "type" ;;
       password <- py_getitem details "password" ;;
       rows <- build_table rest (idx + 1) ;;
       inr ([PInt idx; project; connection_type;
             PStr (CYAN ++ py_str ssh_command ++ RESET_ALL); password] :: rows))%result
  end.

Definition select_prompt : string :=
  "Enter the " ++ CYAN ++ "number" ++ RESET_ALL
  ++ " of the connection to run the SSH command: ".

Definition confirm_prompt (project type_ : pyval) : string :=
  "Are you sure you want to run the command for " ++ YELLOW
  ++ py_str project ++ "@" ++ py_str type_ ++ RESET_ALL
  ++ "? Press Enter to confirm or Ctrl+C to cancel: ".

Definition no_connections_message : string :=
  YELLOW ++ "No SSH connections available.".
Definition invalid_index_message : string :=
  RED ++ "Invalid index. Please enter a valid number.".
Definition executing_message : string :=
  GREEN ++ "Command executing..." ++ RESET_ALL.
Definition canceled_message : string :=
  RED ++ "Command execution canceled.".
Definition interrupted_message : string :=
  RED ++ nl ++ "Operation canceled..." ++ nl.

Definition list_connections : M unit :=
  (conns <- get_connections ;;
   if py_truthy conns then
     items <- lift (py_items conns) ;;
     table <- lift (build_table items 1) ;;
     emit (ETable table_headers table) ;;
     print "" ;;
     try_except
       (answer <- input select_prompt ;;
        index <- lift (py_int answer) ;;
        connection <- lift (py_list_index (dict_values items) (index - 1)) ;;
        project <- lift (py_getitem connection "project") ;;
        type_ <- lift (py_getitem connection "type") ;;
        confirm <- input (confirm_prompt project type_) ;;
        if String.eqb confirm "" then
          print executing_message ;;
          ssh_command <- lift (py_getitem connection "ssh_command") ;;
          os_system ssh_command
        else
          print canceled_message)
       (fun e =>
          match e with
          | IndexError | ValueError => Some (print invalid_index_message)
          | KeyboardInterrupt => Some (print interrupted_message)
          | _ => None
          end)
   else
     print no_connections_message)%prog.

(** *** [main] *)

(** The positional argument argparse lets through. *)
Inductive command : Type :=
| CmdList
| CmdRefresh
| CmdHelp.

Definition print_help : M unit :=
  (print (CYAN ++ "Available commands:") ;;
   print "  list      - Show list & connect to your ssh" ;;
   print "  refresh   - Refresh data from database" ;;
   print "  help      - Show this help message" ;;
   print "")%prog.

Definition main (arg : option command) (net : http_outcome) (wr : write_outcome)
  : M unit :=
  (init ;;
   match arg with
   | None | Some CmdHelp => print_help
   | Some CmdList => list_connections
   | Some CmdRefresh => refresh net wr
   end)%prog.

End Manager.

(** ** Shapes, well-formedness and sample data *)

(** The commands [os.system] was called with, in order. *)
Fixpoint executed (tr : list event) : list string :=
  match tr with
  | [] => []
  | ESystem cmd :: tr' => cmd :: executed tr'
  | _ :: tr' => executed tr'
  end.

(** The prompts shown to the user, in order. *)
Fixpoint prompts (tr : list event) : list string :=
  match tr with
  | [] => []
  | EInput p :: tr' => p :: prompts tr'
  | _ :: tr' => prompts tr'
  end.

(** The last pair of an association list under a key. *)
Fixpoint assoc_last {A : Type} (k : string) (l : list (string * A)) : option A :=
  match l with
  | [] => None
  | (k', x) :: l' =>
      match assoc_last k l' with
      | Some y => Some y
      | None => if String.eqb k k' then Some x else None
      end
  end.

Fixpoint mem_string (k : string) (l : list string) : bool :=
  match l with
  | [] => false
  | k' :: l' => String.eqb k k' || mem_string k l'
  end.

Fixpoint distinct (l : list string) : bool :=
  match l with
  | [] => true
  | k :: l' => negb (mem_string k l') && distinct l'
  end.

(** No dict inside the value has a key twice (what every dict of Python
    satisfies). *)
Fixpoint unique_keys (v : pyval) : bool :=
  match v with
  | PList l => forallb unique_keys l
  | PDict m =>
      distinct (map fst m)
      && forallb (fun kv : string * pyval => let (_, x) := kv in unique_keys x) m
  | _ => true
  end.

(** Two documents with the same content, the order of the members of an
    object apart. *)
Inductive json_equiv : json -> json -> Prop :=
| equiv_null : json_equiv JNull JNull
| equiv_bool b : json_equiv (JBool b) (JBool b)
| equiv_int z : json_equiv (JInt z) (JInt z)
| equiv_float f : json_equiv (JFloat f) (JFloat f)
| equiv_str s : json_equiv (JStr s) (JStr s)
| equiv_arr l1 l2 :
    Forall2 json_equiv l1 l2 -> json_equiv (JArr l1) (JArr l2)
| equiv_obj ms1 ms2 ms2' :
    Permutation ms2 ms2' ->
    Forall2 (fun p q => fst p = fst q /\ json_equiv (snd p) (snd q)) ms1 ms2' ->
    json_equiv (JObj ms1) (JObj ms2).

(** A record [list_connections] can show and run: a dict with the four
    fields, the command a str without a NUL character. *)
Definition is_record (v : pyval) : bool :=
  match v with
  | PDict m =>
      match dict_get "project" m, dict_get "ssh_command" m,
            dict_get "type" m, dict_get "password" m with
      | Some _, Some (PStr cmd), Some _, Some _ => negb (has_nul cmd)
      | _, _, _, _ => false
      end
  | _ => false
  end.

(** A Connection Set: a dict of such records. *)
Definition is_connection_set (v : pyval) : bool :=
  match v with
  | PDict m => forallb is_record (dict_values m)
  | _ => false
  end.

(** The command of a record. *)
Definition command_of (v : pyval) : option string :=
  match py_getitem v "ssh_command" with
  | inr (PStr cmd) => Some cmd
  | _ => None
  end.

(** The Connection Set [refresh] computes from what the network answers, up
    to line 88, when nothing on the way raises. *)
Definition remote_connections (py_repr : pyval -> string) (net : http_outcome)
  : result dict :=
  match net with
  | PostRaises msg => inl (RequestException msg)
  | PostReturns r =>
      if (400 <=? status_code r) && (status_code r <? 600)
      then inl (RequestException (error_text r))
      else (j <- response_json r ;;
            results <- py_get j "results" (PList []) ;;
            pages <- py_iter results ;;
            build_connections py_repr pages [])%result
  end.

(** The request fails in the sense of the specification: an exception of
    [requests.post], or a status outside 200-299. *)
Definition request_failed (net : http_outcome) : bool :=
  match net with
  | PostRaises _ => true
  | PostReturns r => negb ((200 <=? status_code r) && (status_code r <? 300))
  end.

(** The request fails in the sense of the code: an exception of
    [requests.post], or a status [raise_for_status] rejects. *)
Definition request_rejected (net : http_outcome) : bool :=
  match net with
  | PostRaises _ => true
  | PostReturns r => (400 <=? status_code r) && (status_code r <? 600)
  end.

Definition fetch_error_message (net : http_outcome) : string :=
  RED ++ "Error: Failed to fetch data from Notion. "
  ++ match net with
     | PostRaises msg => msg
     | PostReturns r => error_text r
     end.

Definition success_message : string := GREEN ++ "Data updated successfully!".

(** What [refresh] prints when the write fails, and the file it leaves. *)
Definition write_error_message (wr : write_outcome) : string :=
  match wr with
  | WriteOk => success_message
  | OpenFails msg | WriteFails msg =>
      RED ++ "Error: Failed to write to the configuration file. " ++ msg
  | DumpRaises msg => RED ++ "Unexpected error: " ++ msg
  end.

Definition file_after_failed_write (wr : write_outcome) (before : file) : file :=
  match wr with
  | OpenFails _ => before
  | _ => FileMalformed
  end.

(** [load()] followed by [persist()] with nothing in between: the file is
    read by [load_config] and what it gave is written back by the write of
    lines 92-93. *)
Definition load_then_persist : M unit :=
  (load_config ;;
   conns <- get_connections ;;
   write_config WriteOk conns)%prog.

(** *** The shape of a page on which the extraction goes through *)

Definition is_dict (v : pyval) : bool :=
  match v with PDict _ => true | _ => false end.

Definition is_str (v : pyval) : bool :=
  match v with PStr _ => true | _ => false end.

Definition if_present (P : pyval -> bool) (o : option pyval) : bool :=
  match o with
  | Some v => P v
  | None => true
  end.

Definition shaped_item (x : pyval) : bool :=
  match x with
  | PDict m => if_present is_dict (dict_get "text" m)
  | _ => false
  end.

(** A title or rich-text value: anything false, or a list whose first
    element is an object with an object (or nothing) under [text]. *)
Definition shaped_sequence (s : pyval) : bool :=
  negb (py_truthy s)
  || match s with
     | PList (x :: _) => shaped_item x
     | _ => false
     end.

Definition shaped_text_property (seq : string) (v : pyval) : bool :=
  match v with
  | PDict m => if_present shaped_sequence (dict_get seq m)
  | _ => false
  end.

(** A select value: anything false (null, when nothing is selected), or an
    object with a str (or nothing) under [name]. *)
Definition shaped_select (s : pyval) : bool :=
  negb (py_truthy s)
  || match s with
     | PDict n => if_present is_str (dict_get "name" n)
     | _ => false
     end.

Definition shaped_type_property (v : pyval) : bool :=
  match v with
  | PDict m => if_present shaped_select (dict_get "select" m)
  | _ => false
  end.

Definition shaped_properties (p : pyval) : bool :=
  match p with
  | PDict m =>
      if_present (shaped_text_property "title") (dict_get "Project" m)
      && if_present (shaped_text_property "rich_text") (dict_get "SSH" m)
      && if_present shaped_type_property (dict_get "Type" m)
      && if_present (shaped_text_property "rich_text") (dict_get "password" m)
  | _ => false
  end.

Definition well_shaped (page : pyval) : bool :=
  match page with
  | PDict m => if_present shaped_properties (dict_get "properties" m)
  | _ => false
  end.

(** The fields as the specification describes them: follow the path, and
    take the empty string when a step is missing or a sequence is empty. *)
Definition child (k : string) (o : option pyval) : option pyval :=
  match o with
  | Some (PDict m) => dict_get k m
  | _ => None
  end.

Definition nested_content (page : pyval) (prop seq : string) : option pyval :=
  match child seq (child prop (child "properties" (Some page))) with
  | Some (PList (x :: _)) => child "content" (child "text" (Some x))
  | _ => None
  end.

Definition nested_select_name (page : pyval) : option pyval :=
  child "name" (child "select" (child "Type" (child "properties" (Some page)))).

Definition text_or_empty (o : option pyval) : pyval :=
  match o with
  | Some v => v
  | None => PStr ""
  end.

Definition lowered_or_empty (o : option pyval) : string :=
  match o with
  | Some (PStr s) => lower s
  | _ => ""
  end.

(** ** Sample data for the closed examples *)

(** An instance of the parameter [py_repr]; the examples hold no float,
    list or dict where it would be called. *)
Definition plain_repr (v : pyval) : string := "".

Definition sample_record (project type_ cmd password : string) : pyval :=
  PDict [("type", PStr type_); ("project", PStr project);
         ("ssh_command", PStr cmd); ("password", PStr password)].

Definition sample_items : dict :=
  [("alpha@server", sample_record "alpha" "server" "ssh root@alpha" "pw1");
   ("beta@server", sample_record "beta" "server" "ssh root@beta" "")].

Definition sample_connections : pyval := PDict sample_items.

Definition sample_state (input_lines : list stdin_item) : state :=
  mkState sample_connections (FileJson (json_dump sample_connections)) input_lines [].

(** A page as the remote database sends it. *)
Definition sample_page (project type_ cmd : string) : json :=
  JObj [("properties",
         JObj [("Project",
                JObj [("title", JArr [JObj [("text", JObj [("content", JStr project)])]])]);
               ("Type", JObj [("select", JObj [("name", JStr type_)])]);
               ("SSH",
                JObj [("rich_text", JArr [JObj [("text", JObj [("content", JStr cmd)])]])])])].

Definition sample_reply (status : Z) (results : list json) : http_outcome :=
  PostReturns (mkResponse status "" (BodyJson (JObj [("results", JArr results)]))).

(** Setting the pairs of a list one after the other, as a loop of
    [d[k] = v] does. *)
Definition set_all (l : dict) (acc : dict) : dict :=
  fold_left (fun a kv => dict_set (fst kv) (snd kv) a) l acc.

(** The fields of all the pages, when every extraction goes through. *)
Fixpoint extract_all (pages : list pyval) : result (list fields) :=
  match pages with
  | [] => inr []
  | page :: rest =>
      (f <- extract_fields page ;;
       fs <- extract_all rest ;;
       inr (f :: fs))%result
  end.

(** The last of the pages' fields that has the key [k]. *)
Definition last_with_key (py_repr : pyval -> string) (k : string) (fs : list fields)
  : option fields :=
  assoc_last k (map (fun f => (connection_key py_repr f, f)) fs).

(** The pages of three sample records, two of them under one key. *)
Definition sample_pages : list pyval :=
  map json_load [sample_page "alpha" "Server" "ssh one"; sample_page "beta" "db" "ssh two";
                 sample_page "alpha" "server" "ssh three"].

(** The item the loop of [refresh] stores for the fields of a page. *)
Definition entry_of (py_repr : pyval -> string) (f : fields) : string * pyval :=
  (connection_key py_repr f, connection_record f).

(** The indices [list(...)[index - 1]] accepts on a list of [size]
    elements. *)
Definition accepted_index (size index : Z) : bool :=
  (1 - size <=? index) && (index <=? size).

(** The reply of the remote database with one page, and a state whose
    Connection Set differs from what that reply gives. *)
Definition sample_net : http_outcome :=
  sample_reply 200 [sample_page "gamma" "Server" "ssh root@gamma"].

Definition decode_error_message : string :=
  RED ++ "Error: Failed to decode JSON response from Notion.".

(** A config file in which a key stands twice. *)
Definition repeated_key_document : json :=
  JObj [("alpha@server", json_dump (sample_record "alpha" "server" "ssh root@old" ""));
        ("alpha@server", json_dump (sample_record "alpha" "server" "ssh root@new" ""))].

(** ** Relations between the state before and after a computation *)

(** A computation respects a relation when every run relates the state it
    starts in to the state it ends in, whether it returns or raises. *)
Definition respects (R : state -> state -> Prop) {A : Type} (m : M A) : Prop :=
  forall st, R st (snd (m st)).

(** The Connection Set in memory and the config file are as before. *)
Definition same_store (st st' : state) : Prop :=
  connections st' = connections st /\ disk st' = disk st.

(** Nothing was read from the terminal, no prompt was shown and no command
    was run. *)
Definition same_terminal (st st' : state) : Prop :=
  stdin st' = stdin st
  /\ prompts (trace st') = prompts (trace st)
  /\ executed (trace st') = executed (trace st).

(** The trace only grows. *)
Definition trace_extends (st st' : state) : Prop :=
  exists evs, trace st' = (trace st ++ evs)%list.

(** The keys of a list in the order of their first occurrence, those in
    [seen] left out. *)
Fixpoint first_occurrences (seen l : list string) : list string :=
  match l with
  | [] => []
  | k :: l' =>
      if mem_string k seen then first_occurrences seen l'
      else k :: first_occurrences (k :: seen) l'
  end.

(** A Connection Set with a record that lacks its password. *)
Definition incomplete_items : dict :=
  [("alpha@server",
    PDict [("type", PStr "server"); ("project", PStr "alpha");
           ("ssh_command", PStr "ssh root@alpha")])].

Definition incomplete_connections : pyval := PDict incomplete_items.

(** The exceptions the interpreter raises on a reply of an unexpected
    shape. *)
Definition shape_error (e : exn) : Prop :=
  e = AttributeError \/ e = TypeError \/ e = KeyError.

(** A reply whose body is a JSON array, not an object. *)
Definition array_reply : http_outcome :=
  PostReturns (mkResponse 200 "" (BodyJson (JArr []))).

(** The dialogue of lines 119-132 of [list_connections], on the items of
    the Connection Set: the [try] block with its two handlers. *)
Definition dialogue (py_repr : pyval -> string) (items : dict) : M unit :=
  try_except
    (answer <- input select_prompt ;;
     index <- lift (py_int answer) ;;
     connection <- lift (py_list_index (dict_values items) (index - 1)) ;;
     project <- lift (py_getitem connection "project") ;;
     type_ <- lift (py_getitem connection "type") ;;
     confirm <- input (confirm_prompt py_repr project type_) ;;
     if String.eqb confirm "" then
       print executing_message ;;
       ssh_command <- lift (py_getitem connection "ssh_command") ;;
       os_system ssh_command
     else
       print canceled_message)%prog
    (fun e =>
       match e with
       | IndexError | ValueError => Some (print invalid_index_message)
       | KeyboardInterrupt => Some (print interrupted_message)
       | _ => None
       end).


(** A reply with the three sample pages. *)
Definition sample_pages_document : json :=
  JObj [("object", JStr "list");
        ("results",
         JArr [sample_page "alpha" "Server" "ssh one"; sample_page "beta" "db" "ssh two";
               sample_page "alpha" "server" "ssh three"])].

(** A document that is a JSON object. *)
Definition is_object (d : json) : bool :=
  match d with JObj _ => true | _ => false end.

(** A document whose value Python cannot iterate over: null, a boolean or
    a number. *)
Definition not_iterable (d : json) : bool :=
  match d with
  | JNull | JBool _ | JInt _ | JFloat _ => true
  | _ => false
  end.

(** The name of the select field of a page is ASCII text (or there is
    none). *)
Definition ascii_type (page : pyval) : bool :=
  match nested_select_name page with
  | Some (PStr s) => is_ascii s
  | _ => true
  end.

(** No letter from A to Z. *)
Fixpoint no_upper (s : string) : bool :=
  match s with
  | EmptyString => true
  | String c s' =>
      negb ((65 <=? nat_of_ascii c) && (nat_of_ascii c <=? 90))%nat && no_upper s'
  end.

(** A reply whose [results] is null. *)
Definition null_results_reply : http_outcome :=
  PostReturns (mkResponse 200 "" (BodyJson (JObj [("results", JNull)]))).

(** * Properties *)

(** ** Dictionaries *)

Lemma mem_string_In (k : string) (l : list string) :
  mem_string k l = true <-> In k l.
Proof.
  induction l as [|k' l IH]; simpl.
  - split; [discriminate | tauto].
  - rewrite orb_true_iff, IH, String.eqb_eq. split; intros [H | H]; auto.
Qed.

Lemma mem_string_not_In (k : string) (l : list string) :
  mem_string k l = false <-> ~ In k l.
Proof.
  rewrite <- mem_string_In. destruct (mem_string k l); split; congruence.
Qed.

Lemma distinct_NoDup (l : list string) : distinct l = true <-> NoDup l.
Proof.
  induction l as [|k l IH]; simpl.
  - split; [constructor | reflexivity].
  - rewrite andb_true_iff, negb_true_iff, mem_string_not_In, IH.
    split.
    + intros [H1 H2]. now constructor.
    + intros H. inversion H; subst. now split.
Qed.

Lemma dict_get_set (k k' : string) (v : pyval) (m : dict) :
  dict_get k' (dict_set k v m) = if String.eqb k' k then Some v else dict_get k' m.
Proof.
  induction m as [|[k0 v0] m IH]; simpl.
  - destruct (String.eqb k' k); reflexivity.
  - destruct (String.eqb k k0) eqn:E; simpl.
    + apply String.eqb_eq in E. subst k0.
      destruct (String.eqb k' k); reflexivity.
    + destruct (String.eqb k' k0) eqn:E'.
      * apply String.eqb_eq in E'. subst k0.
        rewrite String.eqb_sym, E. reflexivity.
      * exact IH.
Qed.

Lemma dict_get_None (k : string) (m : dict) :
  dict_get k m = None <-> ~ In k (map fst m).
Proof.
  induction m as [|[k0 v0] m IH]; simpl.
  - tauto.
  - destruct (String.eqb k k0) eqn:E.
    + apply String.eqb_eq in E. subst. split; [discriminate | intros H; exfalso; auto].
    + apply String.eqb_neq in E. rewrite IH. split.
      * intros H [H1 | H1]; [congruence | auto].
      * intros H H1. apply H. now right.
Qed.

Lemma dict_set_keys (k : string) (v : pyval) (m : dict) :
  map fst (dict_set k v m)
  = if mem_string k (map fst m) then map fst m else (map fst m ++ [k])%list.
Proof.
  induction m as [|[k0 v0] m IH]; simpl.
  - reflexivity.
  - destruct (String.eqb k k0) eqn:E; simpl.
    + apply String.eqb_eq in E. now subst.
    + rewrite IH. now destruct (mem_string k (map fst m)).
Qed.

Lemma dict_set_fresh (k : string) (v : pyval) (m : dict) :
  ~ In k (map fst m) -> dict_set k v m = (m ++ [(k, v)])%list.
Proof.
  induction m as [|[k0 v0] m IH]; simpl; intros H.
  - reflexivity.
  - destruct (String.eqb k k0) eqn:E.
    + apply String.eqb_eq in E. subst. exfalso. auto.
    + rewrite IH; auto.
Qed.

Lemma dict_set_length (k : string) (v : pyval) (m : dict) :
  List.length (dict_set k v m)
  = if mem_string k (map fst m) then List.length m else S (List.length m).
Proof.
  rewrite <- (length_map fst (dict_set k v m)), dict_set_keys.
  destruct (mem_string k (map fst m)).
  - apply length_map.
  - rewrite length_app, length_map. simpl. lia.
Qed.

Lemma dict_set_In_keys (k k' : string) (v : pyval) (m : dict) :
  In k' (map fst (dict_set k v m)) <-> k' = k \/ In k' (map fst m).
Proof.
  rewrite dict_set_keys. destruct (mem_string k (map fst m)) eqn:E.
  - apply mem_string_In in E. split; [auto | intros [-> | H]; auto].
  - rewrite in_app_iff. simpl. split; intros H; intuition.
Qed.

Lemma dict_set_NoDup (k : string) (v : pyval) (m : dict) :
  NoDup (map fst m) -> NoDup (map fst (dict_set k v m)).
Proof.
  intros H. rewrite dict_set_keys. destruct (mem_string k (map fst m)) eqn:E.
  - exact H.
  - apply mem_string_not_In in E.
    apply NoDup_app; [exact H | repeat constructor; simpl; tauto |].
    intros x Hx [<- | []]. exact (E Hx).
Qed.

Lemma set_all_cons (kv : string * pyval) (l acc : dict) :
  set_all (kv :: l) acc = set_all l (dict_set (fst kv) (snd kv) acc).
Proof. reflexivity. Qed.

Lemma set_all_get (k : string) (l acc : dict) :
  dict_get k (set_all l acc)
  = match assoc_last k l with
    | Some v => Some v
    | None => dict_get k acc
    end.
Proof.
  revert acc. induction l as [|[k0 v0] l IH]; intros acc.
  - reflexivity.
  - rewrite set_all_cons, IH. simpl.
    destruct (assoc_last k l); [reflexivity |].
    rewrite dict_get_set. destruct (String.eqb k k0); reflexivity.
Qed.

Lemma set_all_In_keys (k : string) (l acc : dict) :
  In k (map fst (set_all l acc)) <-> In k (map fst acc) \/ In k (map fst l).
Proof.
  revert acc. induction l as [|[k0 v0] l IH]; intros acc.
  - simpl. tauto.
  - rewrite set_all_cons, IH, dict_set_In_keys. simpl. intuition.
Qed.

Lemma set_all_NoDup (l acc : dict) :
  NoDup (map fst acc) -> NoDup (map fst (set_all l acc)).
Proof.
  revert acc. induction l as [|[k0 v0] l IH]; intros acc H.
  - exact H.
  - rewrite set_all_cons. apply IH, dict_set_NoDup, H.
Qed.

Lemma set_all_length_le (l acc : dict) :
  (List.length (set_all l acc) <= List.length acc + List.length l)%nat.
Proof.
  revert acc. induction l as [|[k0 v0] l IH]; intros acc.
  - simpl. lia.
  - rewrite set_all_cons. specialize (IH (dict_set k0 v0 acc)).
    simpl in *. rewrite dict_set_length in IH.
    destruct (mem_string k0 (map fst acc)); lia.
Qed.

Lemma set_all_length_eq (l acc : dict) :
  List.length (set_all l acc) = (List.length acc + List.length l)%nat
  <-> NoDup (map fst l) /\ (forall k, In k (map fst l) -> ~ In k (map fst acc)).
Proof.
  revert acc. induction l as [|[k0 v0] l IH]; intros acc.
  - simpl. split.
    + intros _. split; [constructor | tauto].
    + intros _. lia.
  - rewrite set_all_cons. simpl fst; simpl snd.
    pose proof (set_all_length_le l (dict_set k0 v0 acc)) as Hle.
    specialize (IH (dict_set k0 v0 acc)).
    rewrite dict_set_length in IH, Hle.
    simpl. destruct (mem_string k0 (map fst acc)) eqn:E.
    + apply mem_string_In in E. split.
      * intros H. lia.
      * intros [_ H]. exfalso. apply (H k0); auto.
    + apply mem_string_not_In in E.
      replace (List.length acc + S (List.length l))%nat
        with (S (List.length acc) + List.length l)%nat by lia.
      rewrite IH. split.
      * intros [H1 H2]. split.
        -- constructor; [| exact H1].
           intros Hin. apply (H2 k0 Hin). apply dict_set_In_keys. now left.
        -- intros k [<- | Hin]; [exact E |].
           intros Hacc. apply (H2 k Hin). apply dict_set_In_keys. now right.
      * intros [H1 H2]. inversion H1; subst. split; [assumption |].
        intros k Hin Hk. apply dict_set_In_keys in Hk. destruct Hk as [-> | Hk].
        -- contradiction.
        -- apply (H2 k); auto.
Qed.

Lemma set_all_fresh (l acc : dict) :
  NoDup (map fst l) -> (forall k, In k (map fst l) -> ~ In k (map fst acc)) ->
  set_all l acc = (acc ++ l)%list.
Proof.
  revert acc. induction l as [|[k0 v0] l IH]; intros acc Hnd Hfresh.
  - simpl. now rewrite app_nil_r.
  - rewrite set_all_cons. simpl fst; simpl snd. simpl in Hnd. inversion Hnd; subst.
    rewrite dict_set_fresh by (apply Hfresh; now left).
    rewrite IH; auto.
    + now rewrite <- app_assoc.
    + intros k Hin. rewrite map_app, in_app_iff. simpl.
      intros [H | [<- | []]]; [| contradiction].
      apply (Hfresh k); auto. now right.
Qed.

(** ** The Connection Set built by [refresh] *)

Section Transform.

Variable py_repr : pyval -> string.

Lemma build_connections_set_all (pages : list pyval) (acc conns : dict) :
  build_connections py_repr pages acc = inr conns <->
  exists fs, extract_all pages = inr fs /\ conns = set_all (map (entry_of py_repr) fs) acc.
Proof.
  revert acc. induction pages as [|page rest IH]; intros acc; simpl.
  - split.
    + intros H. injection H as <-. now exists [].
    + intros [fs [H ->]]. injection H as <-. reflexivity.
  - destruct (extract_fields page) as [e | f]; simpl.
    + split; [discriminate | intros [fs [H _]]; discriminate].
    + rewrite IH. split.
      * intros [fs [H ->]]. exists (f :: fs). rewrite H. now split.
      * intros [fs [H ->]]. destruct (extract_all rest) as [e | fs']; [discriminate |].
        simpl in H. injection H as <-. now exists fs'.
Qed.

Lemma extract_all_length (pages : list pyval) (fs : list fields) :
  extract_all pages = inr fs -> List.length fs = List.length pages.
Proof.
  revert fs. induction pages as [|page rest IH]; intros fs; simpl.
  - intros H. now injection H as <-.
  - destruct (extract_fields page) as [e | f]; [discriminate |]. simpl.
    destruct (extract_all rest) as [e | fs']; [discriminate |]. simpl.
    intros H. injection H as <-. simpl. now rewrite (IH fs').
Qed.

Lemma assoc_last_entries (k : string) (fs : list fields) :
  assoc_last k (map (entry_of py_repr) fs)
  = option_map connection_record (last_with_key py_repr k fs).
Proof.
  unfold last_with_key. induction fs as [|f fs IH]; simpl.
  - reflexivity.
  - rewrite IH.
    destruct (assoc_last k (map (fun f0 => (connection_key py_repr f0, f0)) fs)); simpl.
    + reflexivity.
    + destruct (String.eqb k (connection_key py_repr f)); reflexivity.
Qed.

Lemma entries_keys (fs : list fields) :
  map fst (map (entry_of py_repr) fs) = map (connection_key py_repr) fs.
Proof. rewrite map_map. reflexivity. Qed.

(** The loop of lines 62-88 on N pages gives a dict with at most N
    entries, fewer than N exactly when two pages have the same key, and
    under each key the record of the last page with that key. *)
Lemma build_connections_last_write_wins (pages : list pyval) (conns : dict) :
  build_connections py_repr pages [] = inr conns ->
  exists fs : list fields,
    extract_all pages = inr fs
    /\ List.length fs = List.length pages
    /\ (List.length conns <= List.length pages)%nat
    /\ ((List.length conns < List.length pages)%nat
        <-> ~ NoDup (map (connection_key py_repr) fs))
    /\ (forall k, In k (dict_keys conns) <-> In k (map (connection_key py_repr) fs))
    /\ NoDup (dict_keys conns)
    /\ (forall k, dict_get k conns
                  = option_map connection_record (last_with_key py_repr k fs)).
Proof.
  intros H. apply build_connections_set_all in H. destruct H as [fs [Hfs ->]].
  exists fs. pose proof (extract_all_length _ _ Hfs) as Hlen.
  pose proof (set_all_length_le (map (entry_of py_repr) fs) []) as Hle.
  pose proof (set_all_length_eq (map (entry_of py_repr) fs) []) as Heq.
  rewrite length_map in Hle, Heq. simpl in Hle, Heq. rewrite entries_keys in Heq.
  repeat split; try assumption.
  - lia.
  - intros Hlt Hnd. assert (Hk : forall k, In k (map (connection_key py_repr) fs)
                                 -> ~ In k []) by (intros k _ []).
    destruct Heq as [_ Heq]. specialize (Heq (conj Hnd Hk)). lia.
  - intros Hnd.
    destruct (Nat.eq_dec (List.length (set_all (map (entry_of py_repr) fs) [])) (List.length fs))
      as [E | E]; [| lia].
    exfalso. apply Hnd. now apply Heq.
  - unfold dict_keys. rewrite set_all_In_keys, entries_keys. simpl. tauto.
  - unfold dict_keys. rewrite set_all_In_keys, entries_keys. simpl. tauto.
  - unfold dict_keys. apply set_all_NoDup. constructor.
  - intros k. rewrite set_all_get, assoc_last_entries.
    now destruct (option_map connection_record (last_with_key py_repr k fs)).
Qed.

End Transform.

(** ** Field extraction *)

Lemma extract_text_shaped (m : dict) (prop seq : string) :
  if_present (shaped_text_property seq) (dict_get prop m) = true ->
  extract_text (PDict m) prop seq
  = inr (text_or_empty
           match child seq (dict_get prop m) with
           | Some (PList (x :: _)) => child "content" (child "text" (Some x))
           | _ => None
           end).
Proof.
  unfold extract_text, py_get at 1. simpl rbind.
  destruct (dict_get prop m) as [v |]; simpl; [| reflexivity].
  destruct v as [ | | | | | | pm]; simpl; try discriminate.
  destruct (dict_get seq pm) as [s |]; simpl; [| reflexivity].
  unfold shaped_sequence. intros Hs.
  destruct (py_truthy s) eqn:Ht; simpl in Hs.
  - destruct s as [ | | | | | [|x l] | ]; try discriminate. simpl.
    destruct x as [ | | | | | | xm]; simpl in *; try discriminate.
    destruct (dict_get "text" xm) as [t |]; simpl in *.
    + destruct t as [ | | | | | | tm]; simpl in *; try discriminate.
      now destruct (dict_get "content" tm).
    + reflexivity.
  - destruct s as [ | | | | | [|x l] | ]; simpl in *; try reflexivity; discriminate.
Qed.

Lemma extract_type_shaped (m : dict) :
  if_present shaped_type_property (dict_get "Type" m) = true ->
  extract_type (PDict m)
  = inr (lowered_or_empty (child "name" (child "select" (dict_get "Type" m)))).
Proof.
  unfold extract_type, py_get at 1. simpl rbind.
  destruct (dict_get "Type" m) as [v |]; simpl; [| reflexivity].
  destruct v as [ | | | | | | pm]; simpl; try discriminate.
  destruct (dict_get "select" pm) as [s |]; simpl; [| reflexivity].
  unfold shaped_select. intros Hs.
  destruct (py_truthy s) eqn:Ht; simpl in Hs.
  - destruct s as [ | | | | | | n]; try discriminate. simpl.
    destruct (dict_get "name" n) as [x |]; simpl in *; [| reflexivity].
    destruct x; simpl in *; try discriminate. reflexivity.
  - destruct s as [ | | | | | | [|kv n]]; simpl in *; try reflexivity; discriminate.
Qed.

(** The extraction goes through on the well-shaped pages only. *)
Lemma extract_fields_succeeds_only_on_shaped (page : pyval) (f : fields) :
  extract_fields page = inr f -> well_shaped page = true.
Proof.
  assert (Htext : forall m prop seq v,
             extract_text (PDict m) prop seq = inr v ->
             if_present (shaped_text_property seq) (dict_get prop m) = true).
  { intros m prop seq v. unfold extract_text, py_get at 1. simpl rbind.
    destruct (dict_get prop m) as [p |]; simpl; [| reflexivity].
    destruct p as [ | | | | | | pm]; simpl; try discriminate.
    destruct (dict_get seq pm) as [s |]; simpl; [| reflexivity].
    unfold shaped_sequence.
    destruct (py_truthy s) eqn:Ht; simpl; [| reflexivity].
    destruct s as [ | | | | [|c s] | [|x l] | ]; simpl; try discriminate.
    destruct x as [ | | | | | | xm]; simpl; try discriminate.
    destruct (dict_get "text" xm) as [t |]; simpl; [| reflexivity].
    destruct t; simpl; try discriminate. reflexivity. }
  assert (Htype : forall m t,
             extract_type (PDict m) = inr t ->
             if_present shaped_type_property (dict_get "Type" m) = true).
  { intros m t. unfold extract_type, py_get at 1. simpl rbind.
    destruct (dict_get "Type" m) as [p |]; simpl; [| reflexivity].
    destruct p as [ | | | | | | pm]; simpl; try discriminate.
    destruct (dict_get "select" pm) as [s |]; simpl; [| reflexivity].
    unfold shaped_select.
    destruct (py_truthy s) eqn:Ht; simpl; [| reflexivity].
    destruct s as [ | | | | | | n]; simpl; try discriminate.
    destruct (dict_get "name" n) as [x |]; simpl; [| reflexivity].
    destruct x; simpl; try discriminate. reflexivity. }
  unfold extract_fields, well_shaped.
  destruct page as [ | | | | | | m]; simpl; try discriminate.
  assert (Hprops : forall props,
    (project <- extract_text props "Project" "title" ;;
     ssh <- extract_text props "SSH" "rich_text" ;;
     type_ <- extract_type props ;;
     password <- extract_text props "password" "rich_text" ;;
     inr (mkFields project ssh type_ password))%result = inr f ->
    shaped_properties props = true).
  { intros props.
    destruct props as [ | | | | | | pm]; try discriminate.
    destruct (extract_text (PDict pm) "Project" "title") as [e | v1] eqn:E1;
      [discriminate |].
    destruct (extract_text (PDict pm) "SSH" "rich_text") as [e | v2] eqn:E2;
      [discriminate |].
    destruct (extract_type (PDict pm)) as [e | v3] eqn:E3; [discriminate |].
    destruct (extract_text (PDict pm) "password" "rich_text") as [e | v4] eqn:E4;
      [discriminate |].
    intros _. unfold shaped_properties.
    rewrite (Htext _ _ _ _ E1), (Htext _ _ _ _ E2), (Htype _ _ E3), (Htext _ _ _ _ E4).
    reflexivity. }
  destruct (dict_get "properties" m) as [props |]; simpl.
  - apply Hprops.
  - reflexivity.
Qed.

(** C4, amended: on every page in which each value on the way has the
    expected shape, the extraction of the four fields does not raise, and a
    field is the empty string whenever a step on the way to it is missing
    or its sequence is empty; an empty title gives the project [""]. *)
Theorem extraction_total_on_shaped_pages (page : pyval) :
  well_shaped page = true ->
  exists f : fields,
    extract_fields page = inr f
    /\ f_project f = text_or_empty (nested_content page "Project" "title")
    /\ f_ssh f = text_or_empty (nested_content page "SSH" "rich_text")
    /\ f_type f = lowered_or_empty (nested_select_name page)
    /\ f_password f = text_or_empty (nested_content page "password" "rich_text")
    /\ (child "title" (child "Project" (child "properties" (Some page))) = Some (PList [])
        -> f_project f = PStr "").
Proof.
  unfold well_shaped, extract_fields, nested_content, nested_select_name.
  destruct page as [ | | | | | | m]; try discriminate.
  simpl child. unfold py_get at 1. simpl rbind.
  assert (Hprops : forall pm,
    shaped_properties (PDict pm) = true ->
    exists f : fields,
      (project <- extract_text (PDict pm) "Project" "title" ;;
       ssh <- extract_text (PDict pm) "SSH" "rich_text" ;;
       type_ <- extract_type (PDict pm) ;;
       password <- extract_text (PDict pm) "password" "rich_text" ;;
       inr (mkFields project ssh type_ password))%result = inr f
      /\ f_project f = text_or_empty
           match child "title" (dict_get "Project" pm) with
           | Some (PList (x :: _)) => child "content" (child "text" (Some x))
           | _ => None
           end
      /\ f_ssh f = text_or_empty
           match child "rich_text" (dict_get "SSH" pm) with
           | Some (PList (x :: _)) => child "content" (child "text" (Some x))
           | _ => None
           end
      /\ f_type f = lowered_or_empty (child "name" (child "select" (dict_get "Type" pm)))
      /\ f_password f = text_or_empty
           match child "rich_text" (dict_get "password" pm) with
           | Some (PList (x :: _)) => child "content" (child "text" (Some x))
           | _ => None
           end
      /\ (child "title" (dict_get "Project" pm) = Some (PList []) -> f_project f = PStr "")).
  { intros pm H. unfold shaped_properties in H.
    apply andb_true_iff in H. destruct H as [H H4].
    apply andb_true_iff in H. destruct H as [H H3].
    apply andb_true_iff in H. destruct H as [H1 H2].
    rewrite (extract_text_shaped _ _ _ H1), (extract_text_shaped _ _ _ H2),
      (extract_type_shaped _ H3), (extract_text_shaped _ _ _ H4).
    simpl rbind. eexists. repeat split.
    simpl. intros ->. reflexivity. }
  destruct (dict_get "properties" m) as [props |]; simpl if_present.
  - intros H. destruct props as [ | | | | | | pm]; try discriminate.
    apply (Hprops pm H).
  - intros _. apply (Hprops [] eq_refl).
Qed.

Lemma extraction_total_on_shaped_pages_witness :
  exists f : fields,
    extract_fields (json_load (JObj [("properties",
                      JObj [("Project", JObj [("title", JArr [])]);
                            ("Type", JObj [("select", JNull)])])])) = inr f
    /\ f_project f = PStr "" /\ f_ssh f = PStr "" /\ f_type f = ""
    /\ f_password f = PStr "".
Proof.
  destruct (extraction_total_on_shaped_pages
              (json_load (JObj [("properties",
                      JObj [("Project", JObj [("title", JArr [])]);
                            ("Type", JObj [("select", JNull)])])])) eq_refl)
    as [f [H [H1 [H2 [H3 [H4 _]]]]]].
  exists f. repeat split; assumption.
Defined.

(** C4 as stated fails: a record whose [properties] is null makes the
    extraction raise. *)
Lemma extraction_raises_on_null_properties :
  extract_fields (json_load (JObj [("properties", JNull)])) = inl AttributeError
  /\ ~ (forall page : pyval, exists f : fields, extract_fields page = inr f).
Proof.
  split; [reflexivity |].
  intros H. destruct (H (json_load (JObj [("properties", JNull)]))) as [f Hf].
  discriminate Hf.
Qed.

(** ** The list operation *)

Section Listing.

Variable py_repr : pyval -> string.

Lemma is_record_getitem (v : pyval) :
  is_record v = true ->
  exists project cmd type_ password,
    py_getitem v "project" = inr project
    /\ py_getitem v "ssh_command" = inr (PStr cmd)
    /\ py_getitem v "type" = inr type_
    /\ py_getitem v "password" = inr password
    /\ has_nul cmd = false.
Proof.
  unfold is_record, py_getitem. destruct v as [ | | | | | | m]; try discriminate.
  destruct (dict_get "project" m) as [p |]; [| discriminate].
  destruct (dict_get "ssh_command" m) as [c |]; [| discriminate].
  destruct c as [ | | | | cmd | | ]; try discriminate.
  destruct (dict_get "type" m) as [t |]; [| discriminate].
  destruct (dict_get "password" m) as [w |]; [| discriminate].
  intros H. apply negb_true_iff in H. now exists p, cmd, t, w.
Qed.

Lemma build_table_total (m : dict) (idx : Z) :
  forallb is_record (dict_values m) = true ->
  exists rows, build_table py_repr m idx = inr rows.
Proof.
  revert idx. induction m as [|[name details] m IH]; intros idx H; simpl.
  - now exists [].
  - simpl in H. apply andb_true_iff in H. destruct H as [Hr Hm].
    destruct (is_record_getitem _ Hr) as [p [c [t [w [H1 [H2 [H3 [H4 _]]]]]]]].
    rewrite H1, H2, H3, H4. simpl.
    destruct (IH (idx + 1) Hm) as [rows ->]. simpl. eauto.
Qed.

Lemma py_list_index_accepted {A : Type} (l : list A) (i : Z) :
  accepted_index (Z.of_nat (List.length l)) (i + 1) = true ->
  exists x, py_list_index l i = inr x
            /\ nth_error l (Z.to_nat (if i <? 0 then i + Z.of_nat (List.length l) else i))
               = Some x.
Proof.
  unfold accepted_index, py_list_index. intros H.
  apply andb_true_iff in H. destruct H as [H1 H2].
  apply Z.leb_le in H1, H2.
  set (n := Z.of_nat (List.length l)) in *.
  set (j := if i <? 0 then i + n else i).
  assert (Hj : 0 <= j < n).
  { unfold j. destruct (i <? 0) eqn:E.
    - apply Z.ltb_lt in E. lia.
    - apply Z.ltb_ge in E. lia. }
  replace ((j <? 0) || (n <=? j)) with false.
  2:{ symmetry. apply orb_false_iff. split; [apply Z.ltb_ge | apply Z.leb_gt]; lia. }
  destruct (nth_error l (Z.to_nat j)) as [x |] eqn:E.
  - now exists x.
  - apply nth_error_None in E. unfold n in Hj. lia.
Qed.

Lemma py_list_index_rejected {A : Type} (l : list A) (i : Z) :
  accepted_index (Z.of_nat (List.length l)) (i + 1) = false ->
  py_list_index l i = inl IndexError.
Proof.
  unfold accepted_index, py_list_index. intros H.
  apply andb_false_iff in H.
  set (n := Z.of_nat (List.length l)) in *.
  destruct (i <? 0) eqn:E.
  - apply Z.ltb_lt in E.
    replace ((i + n <? 0) || (n <=? i + n)) with true; [reflexivity |].
    symmetry. apply orb_true_iff. left. apply Z.ltb_lt.
    destruct H as [H | H]; [apply Z.leb_gt in H | apply Z.leb_gt in H]; lia.
  - apply Z.ltb_ge in E.
    replace ((i <? 0) || (n <=? i)) with true; [reflexivity |].
    symmetry. apply orb_true_iff. right. apply Z.leb_le.
    destruct H as [H | H]; [apply Z.leb_gt in H | apply Z.leb_gt in H]; lia.
Qed.

(** What the list operation does up to the first prompt, on a Connection
    Set that is not empty. *)
Lemma list_connections_selection (m : dict) (d : file) (answer : string)
      (rest : list stdin_item) (tr : list event) :
  m <> [] -> is_connection_set (PDict m) = true ->
  exists rows,
    build_table py_repr m 1 = inr rows
    /\ list_connections py_repr (mkState (PDict m) d (Line answer :: rest) tr)
       = try_except
           (index <- lift (py_int answer) ;;
            connection <- lift (py_list_index (dict_values m) (index - 1)) ;;
            project <- lift (py_getitem connection "project") ;;
            type_ <- lift (py_getitem connection "type") ;;
            confirm <- input (confirm_prompt py_repr project type_) ;;
            if String.eqb confirm "" then
              print executing_message ;;
              ssh_command <- lift (py_getitem connection "ssh_command") ;;
              os_system ssh_command
            else
              print canceled_message)%prog
           (fun e =>
              match e with
              | IndexError | ValueError => Some (print invalid_index_message)
              | KeyboardInterrupt => Some (print interrupted_message)
              | _ => None
              end)
           (mkState (PDict m) d rest
              (tr ++ [ETable table_headers rows; EPrint ""; EInput select_prompt])%list).
Proof.
  intros Hne Hcs. simpl in Hcs.
  destruct (build_table_total m 1 Hcs) as [rows Hrows].
  exists rows. split; [exact Hrows |].
  assert (Ht : py_truthy (PDict m) = true) by (destruct m; [congruence | reflexivity]).
  unfold list_connections, try_except, bind, get_connections, lift, print, emit,
    input, py_items.
  cbn [connections disk stdin trace]. rewrite Ht, Hrows.
  cbn [connections disk stdin trace]. rewrite <- !app_assoc. reflexivity.
Qed.

Lemma py_int_parsed (answer : string) (index : Z) :
  parse_int answer = Some index -> py_int answer = inr index.
Proof. unfold py_int. now intros ->. Qed.

Lemma executed_app (tr1 tr2 : list event) :
  executed (tr1 ++ tr2) = (executed tr1 ++ executed tr2)%list.
Proof.
  induction tr1 as [|e tr1 IH]; simpl; [reflexivity |].
  destruct e; simpl; now rewrite IH.
Qed.

(** An accepted selection: the record is taken at [index - 1], from the
    end when that is negative; the user is asked to confirm, and the answer
    decides. *)
Lemma accepted_selection_outcome (m : dict) (d : file) (answer confirm : string)
      (rest : list stdin_item) (tr : list event) (index : Z) :
  is_connection_set (PDict m) = true ->
  parse_int answer = Some index ->
  accepted_index (Z.of_nat (List.length m)) index = true ->
  exists rows connection project type_ cmd,
    build_table py_repr m 1 = inr rows
    /\ nth_error (dict_values m)
         (Z.to_nat (if index - 1 <? 0 then index - 1 + Z.of_nat (List.length m)
                    else index - 1)) = Some connection
    /\ py_getitem connection "project" = inr project
    /\ py_getitem connection "type" = inr type_
    /\ command_of connection = Some cmd
    /\ list_connections py_repr
         (mkState (PDict m) d (Line answer :: Line confirm :: rest) tr)
       = (inr tt, mkState (PDict m) d rest
            (tr ++ [ETable table_headers rows; EPrint ""; EInput select_prompt;
                    EInput (confirm_prompt py_repr project type_)]
                ++ (if String.eqb confirm ""
                    then [EPrint executing_message; ESystem cmd]
                    else [EPrint canceled_message]))%list).
Proof.
  intros Hcs Hparse Hacc.
  assert (Hne : m <> []).
  { destruct m; [| discriminate]. unfold accepted_index in Hacc. simpl in Hacc.
    apply andb_true_iff in Hacc. destruct Hacc as [H1 H2].
    apply Z.leb_le in H1, H2. lia. }
  destruct (list_connections_selection m d answer (Line confirm :: rest) tr Hne Hcs)
    as [rows [Hrows Hrun]].
  destruct (py_list_index_accepted (dict_values m) (index - 1)) as [connection [Hidx Hnth]].
  { unfold dict_values. rewrite length_map.
    now replace (index - 1 + 1) with index by lia. }
  unfold dict_values in Hnth at 2. rewrite length_map in Hnth.
  assert (Hrec : is_record connection = true).
  { simpl in Hcs. rewrite forallb_forall in Hcs. apply Hcs.
    eapply nth_error_In, Hnth. }
  destruct (is_record_getitem _ Hrec)
    as [project [cmd [type_ [password [H1 [H2 [H3 [H4 Hnul]]]]]]]].
  exists rows, connection, project, type_, cmd.
  split; [exact Hrows |]. split; [exact Hnth |].
  split; [exact H1 |]. split; [exact H3 |].
  split; [unfold command_of; now rewrite H2 |].
  rewrite Hrun.
  unfold try_except, bind, lift, input, print, emit, os_system.
  rewrite (py_int_parsed _ _ Hparse), Hidx, H1, H3.
  cbn [connections disk stdin trace].
  destruct (String.eqb confirm "").
  - rewrite H2, Hnul. unfold emit. cbn [connections disk stdin trace].
    rewrite <- !app_assoc. cbn [app]. reflexivity.
  - cbn [connections disk stdin trace].
    rewrite <- !app_assoc. cbn [app]. reflexivity.
Qed.


(** The selection 0 on a Connection Set that is not empty: the record is
    the last one, and an empty confirmation runs its command. *)
Lemma selection_zero_selects_last (m : dict) (d : file) (answer : string)
      (rest : list stdin_item) (tr : list event) :
  m <> [] ->
  is_connection_set (PDict m) = true ->
  parse_int answer = Some 0 ->
  exists connection cmd,
    nth_error (dict_values m) (List.length m - 1) = Some connection
    /\ command_of connection = Some cmd
    /\ executed (trace (snd (list_connections py_repr
                               (mkState (PDict m) d (Line answer :: Line "" :: rest) tr))))
       = (executed tr ++ [cmd])%list.
Proof.
  intros Hne Hcs Hparse.
  destruct (accepted_selection_outcome m d answer "" rest tr 0 Hcs Hparse)
    as [rows [connection [project [type_ [cmd [_ [Hnth [_ [_ [Hcmd Hrun]]]]]]]]]].
  { unfold accepted_index. destruct m; [congruence |].
    apply andb_true_iff. split; apply Z.leb_le; simpl List.length; lia. }
  exists connection, cmd. split; [| split; [exact Hcmd |]].
  - rewrite <- Hnth. f_equal. change (0 - 1 <? 0) with true. cbv iota. lia.
  - rewrite Hrun. cbn [snd trace String.eqb]. rewrite !executed_app. simpl.
    reflexivity.
Qed.

(** A selection in ASCII that is not a number, or a number outside the
    indices Python accepts, gets the invalid-index report and nothing
    else: no second prompt, no command, the Connection Set and the file as
    before. *)
Lemma invalid_selection_rejected (m : dict) (d : file) (answer : string)
      (rest : list stdin_item) (tr : list event) :
  m <> [] -> is_connection_set (PDict m) = true ->
  is_ascii answer = true ->
  match parse_int answer with
  | Some index => accepted_index (Z.of_nat (List.length m)) index = false
  | None => True
  end ->
  exists rows,
    build_table py_repr m 1 = inr rows
    /\ list_connections py_repr (mkState (PDict m) d (Line answer :: rest) tr)
       = (inr tt, mkState (PDict m) d rest
            (tr ++ [ETable table_headers rows; EPrint ""; EInput select_prompt;
                    EPrint invalid_index_message])%list).
Proof.
  intros Hne Hcs _ Hbad.
  destruct (list_connections_selection m d answer rest tr Hne Hcs) as [rows [Hrows Hrun]].
  exists rows. split; [exact Hrows |]. rewrite Hrun.
  unfold try_except, bind, lift, print, emit, py_int.
  destruct (parse_int answer) as [index |].
  - rewrite py_list_index_rejected.
    + cbn [connections disk stdin trace]. rewrite <- !app_assoc. reflexivity.
    + unfold dict_values. rewrite length_map.
      now replace (index - 1 + 1) with index by lia.
  - cbn [connections disk stdin trace]. rewrite <- !app_assoc. reflexivity.
Qed.

(** The selections [size + 1] and anything that is not a number are
    rejected in that way. *)
Lemma selection_beyond_size_rejected (size : Z) :
  0 <= size -> accepted_index size (size + 1) = false.
Proof.
  intros H. unfold accepted_index. apply andb_false_iff. right. apply Z.leb_gt. lia.
Qed.

(** The selection 0 is among the accepted ones, with every index down to
    [1 - size]. *)
Lemma selection_zero_accepted (size : Z) :
  1 <= size -> accepted_index size 0 = true.
Proof.
  intros H. unfold accepted_index. apply andb_true_iff.
  split; apply Z.leb_le; lia.
Qed.

End Listing.



(** C1 at the selection 0: on a Connection Set of two records the answer
    [0] is not rejected; the user is asked to confirm the last record and
    its command is run. *)
Theorem selection_zero_runs_last_command :
  let out := list_connections plain_repr (sample_state [Line "0"; Line ""]) in
  parse_int "0" = Some 0
  /\ fst out = inr tt
  /\ prompts (trace (snd out))
     = [select_prompt; confirm_prompt plain_repr (PStr "beta") (PStr "server")]
  /\ executed (trace (snd out)) = ["ssh root@beta"]
  /\ ~ In (EPrint invalid_index_message) (trace (snd out)).
Proof.
  repeat split; try reflexivity.
  simpl. intros H. repeat (destruct H as [H | H]; [discriminate H |]). exact H.
Qed.

(** C10: without a config file [load_config] leaves an empty Connection
    Set, and on an empty Connection Set the list operation prints "No SSH
    connections available." and does nothing else: no prompt, no input
    read, no command. *)
Theorem missing_config_lists_nothing (py_repr : pyval -> string) (before : pyval)
        (d : file) (input_lines : list stdin_item) (tr : list event)
        (net : http_outcome) (wr : write_outcome) :
  load_config (mkState before FileAbsent input_lines tr)
  = (inr tt, mkState (PDict []) FileAbsent input_lines tr)
  /\ list_connections py_repr (mkState (PDict []) d input_lines tr)
     = (inr tt, mkState (PDict []) d input_lines
                  (tr ++ [EPrint (YELLOW ++ "No SSH connections available.")])%list)
  /\ main py_repr (Some CmdList) net wr (mkState before FileAbsent input_lines tr)
     = (inr tt, mkState (PDict []) FileAbsent input_lines
                  (tr ++ [EPrint (YELLOW ++ "No SSH connections available.")])%list).
Proof. repeat split; reflexivity. Qed.

(** ** The refresh operation *)

Section Refresh.

Variable py_repr : pyval -> string.

(** The write of [refresh] raises nothing but what the file system
    raised. *)
Lemma write_config_raises (wr : write_outcome) (v : pyval) (st st' : state) (e : exn) :
  write_config wr v st = (inl e, st') ->
  exists msg, e = IOError msg \/ e = OtherException msg.
Proof.
  destruct wr as [ | msg | msg | msg]; simpl; intros H; try discriminate;
    injection H as <- _; eauto.
Qed.

(** A request that [requests.post] or [raise_for_status] refuses. *)
Lemma refresh_rejected (net : http_outcome) (wr : write_outcome) (st : state) :
  request_rejected net = true ->
  refresh py_repr net wr st
  = (inr tt, mkState (connections st) (disk st) (stdin st)
               (trace st ++ [EPrint (fetch_error_message net)])%list).
Proof.
  destruct net as [msg | r]; simpl; intros H.
  - reflexivity.
  - unfold refresh, try_except, bind, requests_post, raise_for_status, ret.
    rewrite H. reflexivity.
Qed.

(** C2, amended: when [requests.post] raises, or the status is one that
    [raise_for_status] rejects (400 to 599), [refresh] prints the fetch
    error and stops; the config file and the Connection Set in memory are
    as before. *)
Theorem refresh_aborts_on_rejected_request (net : http_outcome) (wr : write_outcome)
        (st : state) :
  request_rejected net = true ->
  let st' := snd (refresh py_repr net wr st) in
  fst (refresh py_repr net wr st) = inr tt
  /\ disk st' = disk st
  /\ connections st' = connections st
  /\ trace st' = (trace st ++ [EPrint (fetch_error_message net)])%list.
Proof.
  destruct net as [msg | r]; simpl request_rejected; intros H.
  - repeat split.
  - unfold refresh, try_except, bind, requests_post, raise_for_status, ret.
    rewrite H. repeat split.
Qed.

(** A body that is not JSON: the decode error is printed and nothing
    changes. *)
Lemma refresh_aborts_on_bad_body (r : response) (wr : write_outcome) (st : state) :
  request_rejected (PostReturns r) = false ->
  body r = BodyNotJson ->
  refresh py_repr (PostReturns r) wr st
  = (inr tt, mkState (connections st) (disk st) (stdin st)
               (trace st ++ [EPrint decode_error_message])%list).
Proof.
  simpl. intros H Hb.
  unfold refresh, try_except, bind, requests_post, raise_for_status, ret, lift,
    response_json.
  rewrite H, Hb. reflexivity.
Qed.

(** A JSON body on which the transformation raises: the exception leaves
    [refresh] and nothing changes. *)
Lemma refresh_propagates (r : response) (doc : json) (wr : write_outcome) (st : state)
      (e : exn) :
  request_rejected (PostReturns r) = false ->
  body r = BodyJson doc ->
  remote_connections py_repr (PostReturns r) = inl e ->
  refresh py_repr (PostReturns r) wr st = (inl e, st).
Proof.
  simpl. intros H Hb.
  unfold refresh, try_except, bind, requests_post, raise_for_status, ret, lift,
    response_json.
  rewrite H, Hb. simpl.
  destruct (py_get (json_load doc) "results" (PList [])) as [e1 | results] eqn:E1; simpl.
  - destruct (json_load doc); simpl in E1; try discriminate;
      injection E1 as <-; intros H1; injection H1 as <-; reflexivity.
  - destruct (py_iter results) as [e2 | pages]; simpl.
    + intros H1. injection H1 as <-. reflexivity.
    + intros ->. reflexivity.
Qed.

(** A reply from which a Connection Set is computed: it is written and
    kept when the write succeeds; when the write fails the failure is
    printed and the Connection Set in memory stays the old one. *)
Lemma refresh_after_transform (net : http_outcome) (wr : write_outcome) (st : state)
      (conns : dict) :
  remote_connections py_repr net = inr conns ->
  refresh py_repr net wr st
  = match wr with
    | WriteOk =>
        (inr tt, mkState (PDict conns) (FileJson (json_dump (PDict conns))) (stdin st)
                   (trace st ++ [EPrint success_message])%list)
    | _ =>
        (inr tt, mkState (connections st) (file_after_failed_write wr (disk st))
                   (stdin st) (trace st ++ [EPrint (write_error_message wr)])%list)
    end.
Proof.
  destruct net as [msg | r]; simpl; [discriminate |].
  destruct ((400 <=? status_code r) && (status_code r <? 600)) eqn:H; [discriminate |].
  unfold refresh, try_except, bind, requests_post, raise_for_status, ret, lift.
  rewrite H.
  destruct (response_json r) as [e | j]; simpl; [discriminate |].
  destruct (py_get j "results" (PList [])) as [e | results]; simpl; [discriminate |].
  destruct (py_iter results) as [e | pages]; simpl; [discriminate |].
  intros ->. destruct wr; reflexivity.
Qed.

Lemma refresh_failed_write (net : http_outcome) (wr : write_outcome) (st : state)
      (conns : dict) :
  remote_connections py_repr net = inr conns ->
  wr <> WriteOk ->
  refresh py_repr net wr st
  = (inr tt, mkState (connections st) (file_after_failed_write wr (disk st)) (stdin st)
               (trace st ++ [EPrint (write_error_message wr)])%list).
Proof.
  intros H Hwr. rewrite (refresh_after_transform net wr st conns H).
  destruct wr; [congruence | reflexivity ..].
Qed.

(** C3, amended: when the write of the config file fails, the failure is
    printed and the Connection Set in memory is the one from before the
    refresh, not the newly computed one. *)
Theorem failed_write_keeps_previous_set (net : http_outcome) (wr : write_outcome)
        (st : state) (conns : dict) :
  remote_connections py_repr net = inr conns ->
  wr <> WriteOk ->
  let st' := snd (refresh py_repr net wr st) in
  fst (refresh py_repr net wr st) = inr tt
  /\ connections st' = connections st
  /\ trace st' = (trace st ++ [EPrint (write_error_message wr)])%list
  /\ disk st' = file_after_failed_write wr (disk st).
Proof.
  intros H Hwr. rewrite (refresh_after_transform net wr st conns H).
  destruct wr as [ | msg | msg | msg]; [congruence | | | ]; repeat split.
Qed.

(** C7: a reply with a status from 200 to 299 whose body is a JSON object
    without a [results] member, or with an empty [results] array, is a
    success: the config file and the Connection Set become empty and the
    success message is printed. *)
Theorem refresh_without_results_empties (status : Z) (text : string)
        (members : list (string * json)) (st : state) :
  200 <= status < 300 ->
  assoc_last "results" members = None \/ assoc_last "results" members = Some (JArr []) ->
  refresh py_repr (PostReturns (mkResponse status text (BodyJson (JObj members)))) WriteOk st
  = (inr tt, mkState (PDict []) (FileJson (JObj [])) (stdin st)
               (trace st ++ [EPrint (GREEN ++ "Data updated successfully!")])%list).
Proof.
  intros Hs Hm.
  apply (refresh_after_transform _ WriteOk st []).
  unfold remote_connections, response_json. cbn [status_code body].
  replace ((400 <=? status) && (status <? 600)) with false.
  2:{ symmetry. apply andb_false_iff. left. apply Z.leb_gt. lia. }
  cbn [rbind].
  assert (Hget : py_get (json_load (JObj members)) "results" (PList []) = inr (PList [])).
  { simpl. f_equal.
    assert (Hfold : forall ms acc,
      dict_get "results"
        (fold_left (fun (a : dict) (kv : string * json) =>
                      let (k, x) := kv in dict_set k (json_load x) a) ms acc)
      = match assoc_last "results" ms with
        | Some x => Some (json_load x)
        | None => dict_get "results" acc
        end).
    { induction ms as [|[k x] ms IH]; intros acc; cbn [fold_left assoc_last];
        [reflexivity |].
      rewrite IH. destruct (assoc_last "results" ms); [reflexivity |].
      rewrite dict_get_set. now destruct (String.eqb "results" k). }
    rewrite Hfold. destruct Hm as [-> | ->]; reflexivity. }
  rewrite Hget. reflexivity.
Qed.

End Refresh.

Lemma refresh_aborts_on_rejected_request_witness :
  let st := sample_state [] in
  let st' := snd (refresh plain_repr (sample_reply 500 []) WriteOk st) in
  disk st' = disk st /\ connections st' = connections st
  /\ trace st' = [EPrint (RED ++ "Error: Failed to fetch data from Notion. ")].
Proof.
  destruct (refresh_aborts_on_rejected_request plain_repr (sample_reply 500 []) WriteOk
              (sample_state []) eq_refl) as [_ [H1 [H2 H3]]].
  repeat split; assumption.
Defined.

(** C2 as stated fails: a reply with status 300, which is not a 2xx status,
    passes [raise_for_status]; its body is read and the config file and the
    Connection Set are replaced. *)
Lemma refresh_replaces_on_status_300 :
  let st := sample_state [] in
  let st' := snd (refresh plain_repr (sample_reply 300 []) WriteOk st) in
  request_failed (sample_reply 300 []) = true
  /\ disk st' = FileJson (JObj [])
  /\ disk st' <> disk st
  /\ connections st' = PDict []
  /\ connections st' <> connections st.
Proof. repeat split; try reflexivity; discriminate. Qed.

Lemma failed_write_keeps_previous_set_witness :
  let st := sample_state [] in
  let st' := snd (refresh plain_repr sample_net (OpenFails "Permission denied") st) in
  connections st' = sample_connections
  /\ trace st' = [EPrint (RED ++ "Error: Failed to write to the configuration file. "
                          ++ "Permission denied")]
  /\ disk st' = disk st.
Proof.
  destruct (failed_write_keeps_previous_set plain_repr sample_net
              (OpenFails "Permission denied") (sample_state []) _ eq_refl
              ltac:(discriminate)) as [_ [H1 [H2 H3]]].
  repeat split; assumption.
Defined.

(** C3 as stated fails: after a failed write the Connection Set in memory
    is the old one and differs from the newly computed one. *)
Lemma failed_write_does_not_keep_new_set :
  let st' := snd (refresh plain_repr sample_net (OpenFails "Permission denied")
                    (sample_state [])) in
  remote_connections plain_repr sample_net
  = inr [("gamma@server", sample_record "gamma" "server" "ssh root@gamma" "")]
  /\ connections st' = sample_connections
  /\ connections st'
     <> PDict [("gamma@server", sample_record "gamma" "server" "ssh root@gamma" "")].
Proof. repeat split; try reflexivity; discriminate. Qed.

Lemma refresh_without_results_empties_witness :
  refresh plain_repr (PostReturns (mkResponse 200 "" (BodyJson (JObj [("object", JStr "list")]))))
    WriteOk (sample_state [])
  = (inr tt, mkState (PDict []) (FileJson (JObj [])) []
               [EPrint (GREEN ++ "Data updated successfully!")]).
Proof.
  exact (refresh_without_results_empties plain_repr 200 "" [("object", JStr "list")]
           (sample_state []) ltac:(lia) (or_introl eq_refl)).
Defined.

(** C5: for a response that passes [raise_for_status] and whose [results]
    array holds N records on which the extraction goes through, [refresh]
    with a successful write stores, in memory and in the file, a
    Connection Set keyed by [project@type] of the records, with at most N
    entries, fewer than N exactly when two records have the same key, and
    under each key the record built from the last record with that
    key. *)
Theorem refresh_keys_last_write_wins (py_repr : pyval -> string) (status : Z)
        (text : string) (doc : json) (pages : list pyval) (fs : list fields)
        (st : state) :
  (400 <=? status) && (status <? 600) = false ->
  py_get (json_load doc) "results" (PList []) = inr (PList pages) ->
  extract_all pages = inr fs ->
  exists conns : dict,
    refresh py_repr (PostReturns (mkResponse status text (BodyJson doc))) WriteOk st
    = (inr tt, mkState (PDict conns) (FileJson (json_dump (PDict conns))) (stdin st)
                 (trace st ++ [EPrint (GREEN ++ "Data updated successfully!")])%list)
    /\ List.length fs = List.length pages
    /\ (List.length conns <= List.length pages)%nat
    /\ ((List.length conns < List.length pages)%nat
        <-> ~ NoDup (map (fun f => py_str py_repr (f_project f) ++ "@" ++ f_type f) fs))
    /\ (forall k, In k (dict_keys conns)
                  <-> In k (map (fun f => py_str py_repr (f_project f) ++ "@" ++ f_type f)
                                fs))
    /\ NoDup (dict_keys conns)
    /\ (forall k,
          dict_get k conns
          = option_map
              (fun f => PDict [("type", PStr (f_type f)); ("project", f_project f);
                               ("ssh_command", f_ssh f); ("password", f_password f)])
              (assoc_last k
                 (map (fun f => (py_str py_repr (f_project f) ++ "@" ++ f_type f, f))
                      fs))).
Proof.
  intros Hstatus Hresults Hfs.
  assert (Hbuild : build_connections py_repr pages []
                   = inr (set_all (map (entry_of py_repr) fs) [])).
  { apply build_connections_set_all. now exists fs. }
  exists (set_all (map (entry_of py_repr) fs) []).
  split.
  - apply (refresh_after_transform py_repr _ WriteOk st).
    unfold remote_connections, response_json. cbn [status_code body].
    rewrite Hstatus. cbn [rbind]. rewrite Hresults. cbn [rbind py_iter].
    exact Hbuild.
  - destruct (build_connections_last_write_wins py_repr pages _ Hbuild)
      as [fs' [Hfs' [H1 [H2 [H3 [H4 [H5 H6]]]]]]].
    rewrite Hfs in Hfs'. injection Hfs' as <-.
    repeat split; try assumption; try apply H3; try apply H4; try apply H6.
Qed.

Lemma refresh_keys_last_write_wins_witness :
  exists conns : dict,
    refresh plain_repr (PostReturns (mkResponse 200 "" (BodyJson sample_pages_document)))
      WriteOk (sample_state [])
    = (inr tt, mkState (PDict conns) (FileJson (json_dump (PDict conns))) []
                 [EPrint (GREEN ++ "Data updated successfully!")])
    /\ (List.length conns < 3)%nat
    /\ dict_get "alpha@server" conns
       = Some (sample_record "alpha" "server" "ssh three" "").
Proof.
  destruct (refresh_keys_last_write_wins plain_repr 200 "" sample_pages_document
              sample_pages _ (sample_state []) eq_refl eq_refl eq_refl)
    as [conns [H1 [_ [_ [H3 [_ [_ H6]]]]]]].
  exists conns. split; [exact H1 |]. split.
  - apply H3. intros Hnd. simpl in Hnd.
    inversion Hnd as [| x l Hx _]. apply Hx. simpl. auto.
  - rewrite H6. reflexivity.
Defined.

(** ** Reading and writing the config file *)

(** Induction on values and documents, with the hypothesis on every element
    of a list and on every value of a dict. *)
Lemma pyval_forall_ind (P : pyval -> Prop) :
  P PNone -> (forall b, P (PBool b)) -> (forall z, P (PInt z)) ->
  (forall f, P (PFloat f)) -> (forall s, P (PStr s)) ->
  (forall l, Forall P l -> P (PList l)) ->
  (forall m, Forall (fun kv => P (snd kv)) m -> P (PDict m)) ->
  forall v, P v.
Proof.
  intros HN HB HI HF HS HL HD.
  fix IH 1. intros [ | b | z | f | s | l | m].
  - exact HN.
  - apply HB.
  - apply HI.
  - apply HF.
  - apply HS.
  - apply HL. induction l as [|x l IHl]; constructor; [apply IH | exact IHl].
  - apply HD. induction m as [|[k x] m IHm]; constructor; [apply IH | exact IHm].
Qed.

Lemma json_forall_ind (P : json -> Prop) :
  P JNull -> (forall b, P (JBool b)) -> (forall z, P (JInt z)) ->
  (forall f, P (JFloat f)) -> (forall s, P (JStr s)) ->
  (forall l, Forall P l -> P (JArr l)) ->
  (forall ms, Forall (fun kv => P (snd kv)) ms -> P (JObj ms)) ->
  forall d, P d.
Proof.
  intros HN HB HI HF HS HL HD.
  fix IH 1. intros [ | b | z | f | s | l | ms].
  - exact HN.
  - apply HB.
  - apply HI.
  - apply HF.
  - apply HS.
  - apply HL. induction l as [|x l IHl]; constructor; [apply IH | exact IHl].
  - apply HD. induction ms as [|[k x] ms IHm]; constructor; [apply IH | exact IHm].
Qed.

(** The dict [json.load] builds from the members of an object. *)
Lemma load_members (ms : list (string * json)) (acc : dict) :
  fold_left (fun (a : dict) (kv : string * json) =>
               let (k, x) := kv in dict_set k (json_load x) a) ms acc
  = set_all (map (fun kv => (fst kv, json_load (snd kv))) ms) acc.
Proof.
  revert acc. induction ms as [|[k x] ms IH]; intros acc; [reflexivity |].
  cbn [fold_left map]. rewrite set_all_cons. apply IH.
Qed.

Lemma json_load_obj (ms : list (string * json)) :
  json_load (JObj ms) = PDict (set_all (map (fun kv => (fst kv, json_load (snd kv))) ms) []).
Proof. cbn [json_load]. now rewrite load_members. Qed.

Lemma set_all_distinct (l : dict) :
  distinct (map fst l) = true -> set_all l [] = l.
Proof.
  intros H. apply distinct_NoDup in H.
  rewrite set_all_fresh; [reflexivity | exact H | intros k _ []].
Qed.

(** Writing a value whose dicts have distinct keys and reading it back
    gives the value. *)
Lemma load_dump (v : pyval) : unique_keys v = true -> json_load (json_dump v) = v.
Proof.
  induction v as [ | b | z | f | s | l IH | m IH] using pyval_forall_ind;
    try reflexivity; intros H.
  - cbn [json_dump json_load]. f_equal. rewrite map_map.
    cbn [unique_keys] in H. rewrite forallb_forall in H. rewrite Forall_forall in IH.
    rewrite <- (map_id l) at 2. apply map_ext_in. intros x Hx. apply IH; auto.
  - cbn [json_dump]. rewrite json_load_obj. f_equal.
    cbn [unique_keys] in H. apply andb_true_iff in H. destruct H as [Hd Hv].
    rewrite map_map.
    assert (Hmap : map (fun kv : string * pyval =>
                          (fst (let (k, x) := kv in (k, json_dump x)),
                           json_load (snd (let (k, x) := kv in (k, json_dump x))))) m = m).
    { rewrite <- (map_id m) at 2. apply map_ext_in. intros [k x] Hx. cbn [fst snd].
      f_equal. rewrite Forall_forall in IH. apply (IH (k, x) Hx).
      rewrite forallb_forall in Hv. apply (Hv (k, x) Hx). }
    rewrite Hmap. apply set_all_distinct, Hd.
Qed.

Lemma json_equiv_refl (d : json) : json_equiv d d.
Proof.
  induction d as [ | b | z | f | s | l IH | ms IH] using json_forall_ind;
    try constructor.
  - induction IH; constructor; auto.
  - apply (equiv_obj ms ms ms); [apply Permutation_refl |].
    induction IH; constructor; auto.
Qed.

Lemma json_equiv_obj_length (ms1 ms2 : list (string * json)) :
  json_equiv (JObj ms1) (JObj ms2) -> List.length ms1 = List.length ms2.
Proof.
  intros H. inversion H as [ | | | | | | a b ms2' Hp Hf]; subst.
  rewrite (Permutation_length Hp). eapply Forall2_length, Hf.
Qed.

Lemma unique_keys_dict (m : dict) :
  unique_keys (PDict m) = true
  <-> NoDup (map fst m) /\ Forall (fun kv => unique_keys (snd kv) = true) m.
Proof.
  cbn [unique_keys]. rewrite andb_true_iff, distinct_NoDup, forallb_forall, Forall_forall.
  split; intros [H1 H2]; (split; [exact H1 |]); intros [k x] Hx; apply (H2 (k, x) Hx).
Qed.

Lemma unique_keys_list (l : list pyval) :
  unique_keys (PList l) = true <-> Forall (fun x => unique_keys x = true) l.
Proof. cbn [unique_keys]. now rewrite forallb_forall, Forall_forall. Qed.

Lemma dict_set_values (P : pyval -> Prop) (k : string) (v : pyval) (m : dict) :
  P v -> Forall (fun kv => P (snd kv)) m ->
  Forall (fun kv => P (snd kv)) (dict_set k v m).
Proof.
  intros Hv. induction 1 as [|[k0 v0] m H0 Hm IH]; simpl.
  - now repeat constructor.
  - destruct (String.eqb k k0); constructor; auto.
Qed.

Lemma set_all_values (P : pyval -> Prop) (l acc : dict) :
  Forall (fun kv => P (snd kv)) l -> Forall (fun kv => P (snd kv)) acc ->
  Forall (fun kv => P (snd kv)) (set_all l acc).
Proof.
  intros Hl. revert acc. induction Hl as [|[k x] l Hx Hl IH]; intros acc Hacc.
  - exact Hacc.
  - rewrite set_all_cons. apply IH, dict_set_values; assumption.
Qed.

Lemma dict_get_values (P : pyval -> Prop) (k : string) (m : dict) (x : pyval) :
  Forall (fun kv => P (snd kv)) m -> dict_get k m = Some x -> P x.
Proof.
  induction 1 as [|[k0 v0] m H0 Hm IH]; simpl; [discriminate |].
  destruct (String.eqb k k0); [| exact IH].
  intros H. now injection H as <-.
Qed.

(** What [json.load] gives has distinct keys in every dict. *)
Lemma json_load_unique (d : json) : unique_keys (json_load d) = true.
Proof.
  induction d as [ | b | z | f | s | l IH | ms IH] using json_forall_ind;
    try reflexivity.
  - cbn [json_load]. apply unique_keys_list. apply Forall_map. exact IH.
  - rewrite json_load_obj. apply unique_keys_dict. split.
    + apply set_all_NoDup. constructor.
    + apply (set_all_values (fun v => unique_keys v = true)); [| constructor].
      apply Forall_map. cbn [snd]. exact IH.
Qed.

Lemma py_get_unique (v : pyval) (k : string) (default x : pyval) :
  py_get v k default = inr x ->
  unique_keys v = true -> unique_keys default = true -> unique_keys x = true.
Proof.
  destruct v as [ | | | | | | m]; simpl py_get; try discriminate.
  intros H Hv Hd. injection H as <-.
  apply unique_keys_dict in Hv. destruct Hv as [_ Hv].
  destruct (dict_get k m) as [y |] eqn:E; [| exact Hd].
  exact (dict_get_values (fun y => unique_keys y = true) k m y Hv E).
Qed.

Lemma py_index0_unique (v x : pyval) :
  py_index0 v = inr x -> unique_keys v = true -> unique_keys x = true.
Proof.
  destruct v as [ | | | | [|c s] | [|y l] | ]; simpl py_index0; try discriminate;
    intros H Hv; injection H as <-.
  - reflexivity.
  - apply unique_keys_list in Hv. now inversion Hv.
Qed.

Lemma extract_text_unique (properties : pyval) (prop seq : string) (x : pyval) :
  extract_text properties prop seq = inr x ->
  unique_keys properties = true -> unique_keys x = true.
Proof.
  unfold extract_text. intros H Hp.
  destruct (py_get properties prop (PDict [])) as [e | p] eqn:E1; [discriminate |].
  cbn [rbind] in H.
  destruct (py_get p seq (PList [])) as [e | property] eqn:E2; [discriminate |].
  cbn [rbind] in H.
  pose proof (py_get_unique _ _ _ _ E1 Hp eq_refl) as H1.
  pose proof (py_get_unique _ _ _ _ E2 H1 eq_refl) as H2.
  destruct (py_truthy property).
  - destruct (py_index0 property) as [e | first] eqn:E3; [discriminate |].
    cbn [rbind] in H.
    destruct (py_get first "text" (PDict [])) as [e | text] eqn:E4; [discriminate |].
    cbn [rbind] in H.
    pose proof (py_index0_unique _ _ E3 H2) as H3.
    pose proof (py_get_unique _ _ _ _ E4 H3 eq_refl) as H4.
    exact (py_get_unique _ _ _ _ H H4 eq_refl).
  - now injection H as <-.
Qed.

Lemma connection_record_unique (page : pyval) (f : fields) :
  extract_fields page = inr f -> unique_keys page = true ->
  unique_keys (connection_record f) = true.
Proof.
  unfold extract_fields. intros H Hp.
  destruct (py_get page "properties" (PDict [])) as [e | props] eqn:E0; [discriminate |].
  cbn [rbind] in H.
  pose proof (py_get_unique _ _ _ _ E0 Hp eq_refl) as H0.
  destruct (extract_text props "Project" "title") as [e | v1] eqn:E1; [discriminate |].
  cbn [rbind] in H.
  destruct (extract_text props "SSH" "rich_text") as [e | v2] eqn:E2; [discriminate |].
  cbn [rbind] in H.
  destruct (extract_type props) as [e | v3] eqn:E3; [discriminate |].
  cbn [rbind] in H.
  destruct (extract_text props "password" "rich_text") as [e | v4] eqn:E4; [discriminate |].
  cbn [rbind] in H. injection H as <-.
  unfold connection_record. cbn [f_type f_project f_ssh f_password].
  apply unique_keys_dict. split.
  - apply distinct_NoDup. reflexivity.
  - repeat constructor; cbn [snd].
    + exact (extract_text_unique _ _ _ _ E1 H0).
    + exact (extract_text_unique _ _ _ _ E2 H0).
    + exact (extract_text_unique _ _ _ _ E4 H0).
Qed.

Lemma build_connections_unique (py_repr : pyval -> string) (pages : list pyval)
      (acc conns : dict) :
  build_connections py_repr pages acc = inr conns ->
  Forall (fun x => unique_keys x = true) pages ->
  unique_keys (PDict acc) = true -> unique_keys (PDict conns) = true.
Proof.
  intros H Hp. revert acc H. induction Hp as [|page rest Hpage Hrest IH]; intros acc H Hacc.
  - simpl in H. now injection H as <-.
  - cbn [build_connections] in H.
    destruct (extract_fields page) as [e | f] eqn:E; [discriminate |].
    cbn [rbind] in H. apply (IH _ H).
    apply unique_keys_dict in Hacc. destruct Hacc as [Hk Hv].
    apply unique_keys_dict. split.
    + apply dict_set_NoDup, Hk.
    + apply (dict_set_values (fun v => unique_keys v = true)); [| exact Hv].
      exact (connection_record_unique page f E Hpage).
Qed.

Lemma py_iter_unique (v : pyval) (pages : list pyval) :
  py_iter v = inr pages -> unique_keys v = true ->
  Forall (fun x => unique_keys x = true) pages.
Proof.
  destruct v as [ | | | | s | l | m]; simpl py_iter; try discriminate;
    intros H Hv; injection H as <-.
  - induction s; constructor; auto.
  - now apply unique_keys_list.
  - apply Forall_map. apply Forall_forall. reflexivity.
Qed.

Lemma remote_connections_unique (py_repr : pyval -> string) (net : http_outcome)
      (conns : dict) :
  remote_connections py_repr net = inr conns -> unique_keys (PDict conns) = true.
Proof.
  destruct net as [msg | r]; simpl; [discriminate |].
  destruct ((400 <=? status_code r) && (status_code r <? 600)); [discriminate |].
  unfold response_json. destruct (body r) as [doc |]; [| discriminate]. cbn [rbind].
  destruct (py_get (json_load doc) "results" (PList [])) as [e | results] eqn:E1;
    [discriminate |]. cbn [rbind].
  destruct (py_iter results) as [e | pages] eqn:E2; [discriminate |]. cbn [rbind].
  intros H. apply (build_connections_unique py_repr pages [] conns H); [| reflexivity].
  apply (py_iter_unique results pages E2).
  exact (py_get_unique _ _ _ _ E1 (json_load_unique doc) eq_refl).
Qed.

Lemma fetch_error_not_success (net : http_outcome) :
  fetch_error_message net <> success_message.
Proof. unfold fetch_error_message, success_message. simpl. discriminate. Qed.

Lemma decode_error_not_success : decode_error_message <> success_message.
Proof. unfold decode_error_message, success_message. simpl. discriminate. Qed.

Lemma write_error_not_success (wr : write_outcome) :
  wr <> WriteOk -> write_error_message wr <> success_message.
Proof.
  destruct wr; [congruence | | | ]; intros _;
    unfold write_error_message, success_message; simpl; discriminate.
Qed.

Lemma last_event_eq (tr : list event) (a b : string) :
  (tr ++ [EPrint a] = tr ++ [EPrint b])%list -> a = b.
Proof. intros H. apply app_inv_head in H. now injection H. Qed.

(** C6: right after a successful refresh (the one that ends with the
    success message) the config file holds the document of the Connection
    Set in memory, and reading that document gives the Connection Set in
    memory. *)
Theorem successful_refresh_memory_equals_file (py_repr : pyval -> string)
        (net : http_outcome) (wr : write_outcome) (st st' : state) :
  refresh py_repr net wr st = (inr tt, st') ->
  trace st' = (trace st ++ [EPrint success_message])%list ->
  exists doc : json,
    disk st' = FileJson doc
    /\ doc = json_dump (connections st')
    /\ json_load doc = connections st'.
Proof.
  intros Hrun Htrace.
  destruct (request_rejected net) eqn:Hrej.
  - rewrite (refresh_rejected py_repr net wr st Hrej) in Hrun.
    injection Hrun as <-. cbn [trace] in Htrace.
    apply last_event_eq in Htrace. now apply fetch_error_not_success in Htrace.
  - destruct net as [msg | r]; [discriminate |].
    destruct (body r) as [bdoc |] eqn:Hbody.
    + destruct (remote_connections py_repr (PostReturns r)) as [e | conns] eqn:Hremote.
      * rewrite (refresh_propagates py_repr r bdoc wr st e Hrej Hbody Hremote) in Hrun.
        discriminate.
      * assert (Hwr : wr = WriteOk \/ wr <> WriteOk)
          by (destruct wr; [now left | right; discriminate ..]).
        destruct Hwr as [-> | Hwr].
        -- rewrite (refresh_after_transform py_repr _ WriteOk st conns Hremote) in Hrun.
           injection Hrun as <-. cbn [disk connections].
           exists (json_dump (PDict conns)). repeat split.
           apply load_dump. exact (remote_connections_unique py_repr _ conns Hremote).
        -- rewrite (refresh_failed_write py_repr _ wr st conns Hremote Hwr) in Hrun.
           injection Hrun as <-. cbn [trace] in Htrace. apply last_event_eq in Htrace.
           now apply write_error_not_success in Htrace.
    + rewrite (refresh_aborts_on_bad_body py_repr r wr st Hrej Hbody) in Hrun.
      injection Hrun as <-. cbn [trace] in Htrace.
      apply last_event_eq in Htrace. now apply decode_error_not_success in Htrace.
Qed.

Lemma successful_refresh_memory_equals_file_witness :
  exists doc : json,
    disk (snd (refresh plain_repr sample_net WriteOk (sample_state []))) = FileJson doc
    /\ doc = JObj [("gamma@server",
                    json_dump (sample_record "gamma" "server" "ssh root@gamma" ""))]
    /\ json_load doc
       = connections (snd (refresh plain_repr sample_net WriteOk (sample_state []))).
Proof.
  destruct (successful_refresh_memory_equals_file plain_repr sample_net WriteOk
              (sample_state []) _ eq_refl eq_refl) as [doc [H1 [H2 H3]]].
  exists doc. split; [exact H1 |]. split; [exact H2 | exact H3].
Defined.

(** C8, amended: for every config file that [load] reads, [load] and then
    [persist] with nothing in between leave a file that [load] reads to
    the same value as the original file: the same keys in the same order
    with the same values.  The document itself is not reproduced in
    general (see the next lemma). *)
Theorem load_then_persist_keeps_value (doc : json) (st : state) :
  disk st = FileJson doc ->
  exists doc' : json,
    load_then_persist st
    = (inr tt, mkState (json_load doc) (FileJson doc') (stdin st) (trace st))
    /\ doc' = json_dump (json_load doc)
    /\ json_load doc' = json_load doc
    /\ load_config (mkState (json_load doc) (FileJson doc') (stdin st) (trace st))
       = (inr tt, mkState (json_load doc) (FileJson doc') (stdin st) (trace st)).
Proof.
  intros Hdisk. exists (json_dump (json_load doc)).
  pose proof (load_dump (json_load doc) (json_load_unique doc)) as Hround.
  split; [| split; [reflexivity | split; [exact Hround |]]].
  - unfold load_then_persist, load_config, bind, get_disk, get_connections,
      set_connections, write_config, set_disk.
    rewrite Hdisk. reflexivity.
  - unfold load_config, bind, get_disk, set_connections.
    cbn [connections disk stdin trace]. now rewrite Hround.
Qed.

Lemma load_then_persist_keeps_value_witness :
  exists doc' : json,
    load_then_persist (mkState (PDict []) (FileJson repeated_key_document) [] [])
    = (inr tt, mkState (json_load repeated_key_document) (FileJson doc') [] [])
    /\ json_load doc' = json_load repeated_key_document
    /\ json_load doc'
       = PDict [("alpha@server", sample_record "alpha" "server" "ssh root@new" "")].
Proof.
  destruct (load_then_persist_keeps_value repeated_key_document
              (mkState (PDict []) (FileJson repeated_key_document) [] []) eq_refl)
    as [doc' [H1 [_ [H3 _]]]].
  exists doc'. split; [exact H1 |]. split; [exact H3 |].
  rewrite H3. reflexivity.
Defined.

(** C8 as stated fails: a config file in which a key stands twice is valid
    JSON; [load] keeps the last value only, and what [persist] writes has
    one member where the file had two. *)
Lemma load_then_persist_drops_repeated_key :
  let st := mkState (PDict []) (FileJson repeated_key_document) [] [] in
  exists doc' : json,
    disk (snd (load_then_persist st)) = FileJson doc'
    /\ doc' = JObj [("alpha@server",
                     json_dump (sample_record "alpha" "server" "ssh root@new" ""))]
    /\ ~ json_equiv doc' repeated_key_document.
Proof.
  eexists. split; [reflexivity |]. split; [reflexivity |].
  intros H. apply json_equiv_obj_length in H. discriminate H.
Qed.

(** ** Examples of [int()] on a line of input *)

Example parse_int_samples :
  parse_int "2" = Some 2 /\ parse_int " 12 " = Some 12 /\ parse_int "-3" = Some (-3)
  /\ parse_int "1_0" = Some 10 /\ parse_int "1__0" = None /\ parse_int "" = None
  /\ parse_int "abc" = None /\ parse_int "1_" = None /\ parse_int "+ 1" = None
  /\ parse_int "007" = Some 7 /\ str_of_int (-12) = "-12" /\ str_of_int 0 = "0".
Proof. repeat split; reflexivity. Qed.

(** On the sample Connection Set of two records the selections [3] and
    [two] get the invalid-index report, and nothing runs. *)
Example selection_three_and_text_rejected :
  executed (trace (snd (list_connections plain_repr (sample_state [Line "3"; Line ""])))) = []
  /\ In (EPrint invalid_index_message)
        (trace (snd (list_connections plain_repr (sample_state [Line "3"; Line ""]))))
  /\ executed (trace (snd (list_connections plain_repr (sample_state [Line "two"; Line ""])))) = []
  /\ In (EPrint invalid_index_message)
        (trace (snd (list_connections plain_repr (sample_state [Line "two"; Line ""])))).
Proof. repeat split; simpl; auto 10. Qed.

(** * Further properties of the program *)

(** ** What a computation leaves alone *)

Section Respects.

Variable R : state -> state -> Prop.
Hypothesis R_refl : forall st, R st st.
Hypothesis R_trans : forall st1 st2 st3, R st1 st2 -> R st2 st3 -> R st1 st3.

Lemma respects_ret {A : Type} (a : A) : respects R (ret a).
Proof. intros st. apply R_refl. Qed.

Lemma respects_raise {A : Type} (e : exn) : respects R (@raise A e).
Proof. intros st. apply R_refl. Qed.

Lemma respects_lift {A : Type} (r : result A) : respects R (lift r).
Proof. intros st. apply R_refl. Qed.

Lemma respects_get_connections : respects R get_connections.
Proof. intros st. apply R_refl. Qed.

Lemma respects_get_disk : respects R get_disk.
Proof. intros st. apply R_refl. Qed.

Lemma respects_bind {A B : Type} (m : M A) (k : A -> M B) :
  respects R m -> (forall a, respects R (k a)) -> respects R (bind m k).
Proof.
  intros Hm Hk st. unfold bind. specialize (Hm st).
  destruct (m st) as [[e | a] st1]; cbn [snd] in *.
  - exact Hm.
  - eapply R_trans; [exact Hm | apply Hk].
Qed.

Lemma respects_try_except {A : Type} (m : M A) (h : exn -> option (M A)) :
  respects R m -> (forall e k, h e = Some k -> respects R k) ->
  respects R (try_except m h).
Proof.
  intros Hm Hh st. unfold try_except. specialize (Hm st).
  destruct (m st) as [[e | a] st1]; cbn [snd] in *.
  - destruct (h e) as [k |] eqn:E.
    + eapply R_trans; [exact Hm | apply (Hh e k E)].
    + exact Hm.
  - exact Hm.
Qed.

End Respects.

Lemma same_store_refl (st : state) : same_store st st.
Proof. now split. Qed.

Lemma same_store_trans (st1 st2 st3 : state) :
  same_store st1 st2 -> same_store st2 st3 -> same_store st1 st3.
Proof. intros [H1 H2] [H3 H4]. split; congruence. Qed.

Lemma same_terminal_refl (st : state) : same_terminal st st.
Proof. now repeat split. Qed.

Lemma same_terminal_trans (st1 st2 st3 : state) :
  same_terminal st1 st2 -> same_terminal st2 st3 -> same_terminal st1 st3.
Proof. intros [H1 [H2 H3]] [H4 [H5 H6]]. repeat split; congruence. Qed.

Lemma trace_extends_refl (st : state) : trace_extends st st.
Proof. exists []. now rewrite app_nil_r. Qed.

Lemma trace_extends_trans (st1 st2 st3 : state) :
  trace_extends st1 st2 -> trace_extends st2 st3 -> trace_extends st1 st3.
Proof.
  intros [e1 H1] [e2 H2]. exists (e1 ++ e2)%list. now rewrite H2, H1, app_assoc.
Qed.

Lemma prompts_app (tr1 tr2 : list event) :
  prompts (tr1 ++ tr2) = (prompts tr1 ++ prompts tr2)%list.
Proof.
  induction tr1 as [|e tr1 IH]; simpl; [reflexivity |].
  destruct e; simpl; now rewrite IH.
Qed.

(** The primitives and the relations they respect. *)
Lemma emit_same_store (e : event) : respects same_store (emit e).
Proof. intros st. now split. Qed.

Lemma input_same_store (prompt : string) : respects same_store (input prompt).
Proof. intros st. unfold input. destruct (stdin st) as [|[s | | ] rest]; now split. Qed.

Lemma os_system_same_store (v : pyval) : respects same_store (os_system v).
Proof. intros st. destruct v; try (now split). simpl. destruct (has_nul s); now split. Qed.

Lemma emit_trace_extends (e : event) : respects trace_extends (emit e).
Proof. intros st. now exists [e]. Qed.

Lemma input_trace_extends (prompt : string) : respects trace_extends (input prompt).
Proof.
  intros st. unfold input.
  destruct (stdin st) as [|[s | | ] rest]; now exists [EInput prompt].
Qed.

Lemma os_system_trace_extends (v : pyval) : respects trace_extends (os_system v).
Proof.
  intros st. destruct v; try apply trace_extends_refl. simpl.
  destruct (has_nul s); [apply trace_extends_refl | now exists [ESystem s]].
Qed.

Lemma set_connections_trace_extends (v : pyval) :
  respects trace_extends (set_connections v).
Proof. intros st. exists []. simpl. now rewrite app_nil_r. Qed.

Lemma set_disk_trace_extends (f : file) : respects trace_extends (set_disk f).
Proof. intros st. exists []. simpl. now rewrite app_nil_r. Qed.

Lemma print_same_terminal (text : string) : respects same_terminal (print text).
Proof.
  intros st. unfold print, emit, same_terminal. cbn [snd stdin trace].
  rewrite prompts_app, executed_app. simpl. now rewrite !app_nil_r.
Qed.

Lemma set_connections_same_terminal (v : pyval) :
  respects same_terminal (set_connections v).
Proof. intros st. now repeat split. Qed.

Lemma set_disk_same_terminal (f : file) : respects same_terminal (set_disk f).
Proof. intros st. now repeat split. Qed.

Create HintDb respects.
#[local] Hint Resolve same_store_refl same_store_trans same_terminal_refl
  same_terminal_trans trace_extends_refl trace_extends_trans : respects.
#[local] Hint Resolve respects_ret respects_raise respects_lift respects_get_connections
  respects_get_disk emit_same_store input_same_store os_system_same_store
  emit_trace_extends input_trace_extends os_system_trace_extends
  set_connections_trace_extends set_disk_trace_extends print_same_terminal
  set_connections_same_terminal set_disk_same_terminal : respects.

(** Walks through a computation built from [bind], [try_except] and
    branches, and closes the leaves with the lemmas on the primitives. *)
Ltac respects_walk :=
  repeat first
    [ apply respects_bind; [eauto with respects | | intros ?]
    | apply respects_try_except;
      [eauto with respects | |
       let e := fresh "e" in let k := fresh "k" in let H := fresh "H" in
       intros e k H; destruct e; inversion H; subst; clear H]
    | match goal with
      | |- respects _ (if ?b then _ else _) => destruct b
      | |- respects _ (match ?x with _ => _ end) => destruct x
      end
    | solve [unfold print; eauto with respects] ].

Lemma list_connections_respects_store (py_repr : pyval -> string) :
  respects same_store (list_connections py_repr).
Proof. unfold list_connections. respects_walk. Qed.

Lemma list_connections_respects_trace (py_repr : pyval -> string) :
  respects trace_extends (list_connections py_repr).
Proof. unfold list_connections. respects_walk. Qed.

Lemma refresh_respects_terminal (py_repr : pyval -> string) (net : http_outcome)
      (wr : write_outcome) :
  respects same_terminal (refresh py_repr net wr).
Proof. unfold refresh, requests_post, raise_for_status, write_config. respects_walk. Qed.

Lemma refresh_respects_trace (py_repr : pyval -> string) (net : http_outcome)
      (wr : write_outcome) :
  respects trace_extends (refresh py_repr net wr).
Proof. unfold refresh, requests_post, raise_for_status, write_config. respects_walk. Qed.

(** X1: the list operation itself changes neither the Connection Set in
    memory nor the config file: the Connection Set in memory is as before
    after every run, the config file is as before after every run in
    which no command was handed to the shell, and what was printed before
    stays in the trace. *)
Theorem list_changes_nothing_itself (py_repr : pyval -> string) (st : state) :
  connections (snd (list_connections py_repr st)) = connections st
  /\ (executed (trace (snd (list_connections py_repr st))) = executed (trace st) ->
      disk (snd (list_connections py_repr st)) = disk st)
  /\ exists evs, trace (snd (list_connections py_repr st)) = (trace st ++ evs)%list.
Proof.
  destruct (list_connections_respects_store py_repr st) as [H1 H2].
  split; [exact H1 |]. split; [intros _; exact H2 |].
  exact (list_connections_respects_trace py_repr st).
Qed.

(** X2: [refresh] never reads the terminal, shows no prompt and runs no
    command, whatever the network and the file system do. *)
Theorem refresh_never_touches_terminal (py_repr : pyval -> string) (net : http_outcome)
        (wr : write_outcome) (st : state) :
  stdin (snd (refresh py_repr net wr st)) = stdin st
  /\ prompts (trace (snd (refresh py_repr net wr st))) = prompts (trace st)
  /\ executed (trace (snd (refresh py_repr net wr st))) = executed (trace st)
  /\ exists evs, trace (snd (refresh py_repr net wr st)) = (trace st ++ evs)%list.
Proof.
  destruct (refresh_respects_terminal py_repr net wr st) as [H1 [H2 H3]].
  repeat (split; [assumption |]).
  exact (refresh_respects_trace py_repr net wr st).
Qed.

(** ** The ways [refresh] can end *)

Lemma py_get_error (v : pyval) (k : string) (default : pyval) (e : exn) :
  py_get v k default = inl e -> e = AttributeError.
Proof. destruct v; simpl; intros H; try discriminate; now injection H. Qed.

Lemma py_iter_error (v : pyval) (e : exn) : py_iter v = inl e -> e = TypeError.
Proof. destruct v; simpl; intros H; try discriminate; now injection H. Qed.

Lemma py_index0_error (v : pyval) (e : exn) :
  py_truthy v = true -> py_index0 v = inl e -> e = KeyError \/ e = TypeError.
Proof.
  destruct v as [ | | | | [|c s] | [|x l] | ]; simpl; intros Ht H;
    try discriminate; injection H as <-; auto.
Qed.

Lemma extract_text_error (properties : pyval) (prop seq : string) (e : exn) :
  extract_text properties prop seq = inl e -> shape_error e.
Proof.
  unfold extract_text, shape_error.
  destruct (py_get properties prop (PDict [])) as [e1 | p] eqn:E1; cbn [rbind].
  { intros H. injection H as <-. left. exact (py_get_error _ _ _ _ E1). }
  destruct (py_get p seq (PList [])) as [e2 | property] eqn:E2; cbn [rbind].
  { intros H. injection H as <-. left. exact (py_get_error _ _ _ _ E2). }
  destruct (py_truthy property) eqn:Ht; [| discriminate].
  destruct (py_index0 property) as [e3 | first] eqn:E3; cbn [rbind].
  { intros H. injection H as <-. right.
    destruct (py_index0_error _ _ Ht E3); auto. }
  destruct (py_get first "text" (PDict [])) as [e4 | text] eqn:E4; cbn [rbind].
  { intros H. injection H as <-. left. exact (py_get_error _ _ _ _ E4). }
  intros H. left. exact (py_get_error _ _ _ _ H).
Qed.

Lemma extract_type_error (properties : pyval) (e : exn) :
  extract_type properties = inl e -> shape_error e.
Proof.
  unfold extract_type, shape_error.
  destruct (py_get properties "Type" (PDict [])) as [e1 | p] eqn:E1; cbn [rbind].
  { intros H. injection H as <-. left. exact (py_get_error _ _ _ _ E1). }
  destruct (py_get p "select" (PDict [])) as [e2 | sel] eqn:E2; cbn [rbind].
  { intros H. injection H as <-. left. exact (py_get_error _ _ _ _ E2). }
  destruct (py_truthy sel); [| discriminate].
  destruct (py_get sel "name" (PStr "")) as [e3 | name] eqn:E3; cbn [rbind].
  { intros H. injection H as <-. left. exact (py_get_error _ _ _ _ E3). }
  destruct name; simpl; intros H; try discriminate; injection H as <-; now left.
Qed.

Lemma extract_fields_error (page : pyval) (e : exn) :
  extract_fields page = inl e -> shape_error e.
Proof.
  unfold extract_fields.
  destruct (py_get page "properties" (PDict [])) as [e0 | props] eqn:E0; cbn [rbind].
  { intros H. injection H as <-. left. exact (py_get_error _ _ _ _ E0). }
  destruct (extract_text props "Project" "title") as [e1 | v1] eqn:E1; cbn [rbind].
  { intros H. injection H as <-. exact (extract_text_error _ _ _ _ E1). }
  destruct (extract_text props "SSH" "rich_text") as [e2 | v2] eqn:E2; cbn [rbind].
  { intros H. injection H as <-. exact (extract_text_error _ _ _ _ E2). }
  destruct (extract_type props) as [e3 | v3] eqn:E3; cbn [rbind].
  { intros H. injection H as <-. exact (extract_type_error _ _ E3). }
  destruct (extract_text props "password" "rich_text") as [e4 | v4] eqn:E4; cbn [rbind].
  { intros H. injection H as <-. exact (extract_text_error _ _ _ _ E4). }
  discriminate.
Qed.

Lemma build_connections_error (py_repr : pyval -> string) (pages : list pyval)
      (acc : dict) (e : exn) :
  build_connections py_repr pages acc = inl e -> shape_error e.
Proof.
  revert acc. induction pages as [|page rest IH]; intros acc; cbn [build_connections].
  - discriminate.
  - destruct (extract_fields page) as [e1 | f] eqn:E; cbn [rbind].
    + intros H. injection H as <-. exact (extract_fields_error _ _ E).
    + apply IH.
Qed.

(** The four ways [refresh] can end. *)
Lemma refresh_cases (py_repr : pyval -> string) (net : http_outcome)
      (wr : write_outcome) (st : state) :
  (request_rejected net = true
   /\ refresh py_repr net wr st
      = (inr tt, mkState (connections st) (disk st) (stdin st)
                   (trace st ++ [EPrint (fetch_error_message net)])%list))
  \/ (exists r, net = PostReturns r /\ request_rejected net = false
                /\ body r = BodyNotJson
                /\ refresh py_repr net wr st
                   = (inr tt, mkState (connections st) (disk st) (stdin st)
                                (trace st ++ [EPrint decode_error_message])%list))
  \/ (exists e, shape_error e /\ refresh py_repr net wr st = (inl e, st))
  \/ (exists conns, remote_connections py_repr net = inr conns
                    /\ refresh py_repr net wr st
                       = match wr with
                         | WriteOk =>
                             (inr tt,
                              mkState (PDict conns) (FileJson (json_dump (PDict conns)))
                                (stdin st) (trace st ++ [EPrint success_message])%list)
                         | _ =>
                             (inr tt,
                              mkState (connections st)
                                (file_after_failed_write wr (disk st)) (stdin st)
                                (trace st ++ [EPrint (write_error_message wr)])%list)
                         end).
Proof.
  destruct (request_rejected net) eqn:Hrej.
  - left. split; [reflexivity |]. exact (refresh_rejected py_repr net wr st Hrej).
  - right. destruct net as [msg | r]; [discriminate |].
    destruct (body r) as [doc |] eqn:Hbody.
    + right.
      destruct (remote_connections py_repr (PostReturns r)) as [e | conns] eqn:Hremote.
      * left. exists e. split.
        -- simpl in Hremote, Hrej. rewrite Hrej in Hremote.
           unfold response_json in Hremote. rewrite Hbody in Hremote.
           cbn [rbind] in Hremote.
           destruct (py_get (json_load doc) "results" (PList [])) as [e1 | results] eqn:E1;
             cbn [rbind] in Hremote.
           { injection Hremote as <-. left. exact (py_get_error _ _ _ _ E1). }
           destruct (py_iter results) as [e2 | pages] eqn:E2; cbn [rbind] in Hremote.
           { injection Hremote as <-. right. left. exact (py_iter_error _ _ E2). }
           exact (build_connections_error py_repr pages [] e Hremote).
        -- exact (refresh_propagates py_repr r doc wr st e Hrej Hbody Hremote).
      * right. exists conns. split; [reflexivity |].
        exact (refresh_after_transform py_repr _ wr st conns Hremote).
    + left. exists r. repeat split; try assumption.
      exact (refresh_aborts_on_bad_body py_repr r wr st Hrej Hbody).
Qed.

(** X3: when the status passes [raise_for_status] and the body of the reply
    is not JSON, [refresh] prints the decode error and returns; the config
    file and the Connection Set in memory are as before. *)
Theorem refresh_bad_body_changes_nothing (py_repr : pyval -> string) (status : Z)
        (text : string) (wr : write_outcome) (st : state) :
  (400 <=? status) && (status <? 600) = false ->
  refresh py_repr (PostReturns (mkResponse status text BodyNotJson)) wr st
  = (inr tt, mkState (connections st) (disk st) (stdin st)
               (trace st
                ++ [EPrint (RED ++ "Error: Failed to decode JSON response from Notion.")])%list).
Proof.
  intros H.
  unfold refresh, try_except, bind, requests_post, raise_for_status, ret, lift,
    response_json.
  cbn [status_code body]. rewrite H. reflexivity.
Qed.

Lemma refresh_bad_body_changes_nothing_witness :
  refresh plain_repr (PostReturns (mkResponse 200 "" BodyNotJson)) WriteOk (sample_state [])
  = (inr tt, mkState sample_connections (FileJson (json_dump sample_connections)) []
               [EPrint (RED ++ "Error: Failed to decode JSON response from Notion.")]).
Proof.
  exact (refresh_bad_body_changes_nothing plain_repr 200 "" WriteOk (sample_state [])
           eq_refl).
Defined.

Lemma assoc_last_map {A B : Type} (g : A -> B) (k : string) (l : list (string * A)) :
  assoc_last k (map (fun kv => (fst kv, g (snd kv))) l) = option_map g (assoc_last k l).
Proof.
  induction l as [|[k0 x] l IH]; cbn [map assoc_last fst snd]; [reflexivity |].
  rewrite IH. destruct (assoc_last k l); cbn [option_map]; [reflexivity |].
  now destruct (String.eqb k k0).
Qed.

Lemma json_load_obj_get (k : string) (ms : list (string * json)) :
  py_get (json_load (JObj ms)) k (PList [])
  = inr (match assoc_last k ms with
         | Some x => json_load x
         | None => PList []
         end).
Proof.
  rewrite json_load_obj. cbn [py_get]. rewrite set_all_get, assoc_last_map.
  now destruct (assoc_last k ms).
Qed.

(** X4: a reply that passes [raise_for_status] and whose body is JSON of an
    unexpected shape is not reported: when the body is not an object,
    AttributeError leaves [refresh], and when it is an object whose
    [results] is null, a boolean or a number, TypeError leaves [refresh];
    in both cases nothing is printed and nothing changes. *)
Theorem refresh_escapes_on_unexpected_shape (py_repr : pyval -> string) (status : Z)
        (text : string) (doc : json) (wr : write_outcome) (st : state) :
  (400 <=? status) && (status <? 600) = false ->
  (is_object doc = false ->
   refresh py_repr (PostReturns (mkResponse status text (BodyJson doc))) wr st
   = (inl AttributeError, st))
  /\ (forall members x,
        doc = JObj members ->
        assoc_last "results" members = Some x ->
        not_iterable x = true ->
        refresh py_repr (PostReturns (mkResponse status text (BodyJson doc))) wr st
        = (inl TypeError, st)).
Proof.
  intros Hstatus. split.
  - intros Hobj.
    apply (refresh_propagates py_repr _ doc wr st); [exact Hstatus | reflexivity |].
    unfold remote_connections, response_json. cbn [status_code body].
    rewrite Hstatus. cbn [rbind].
    destruct doc; try discriminate Hobj; reflexivity.
  - intros members x -> Hx Hnot.
    apply (refresh_propagates py_repr _ (JObj members) wr st);
      [exact Hstatus | reflexivity |].
    unfold remote_connections, response_json. cbn [status_code body].
    rewrite Hstatus. cbn [rbind]. rewrite json_load_obj_get, Hx. cbn [rbind].
    destruct x; try discriminate Hnot; reflexivity.
Qed.

Lemma refresh_escapes_on_unexpected_shape_witness :
  refresh plain_repr array_reply WriteOk (sample_state [])
  = (inl AttributeError, sample_state [])
  /\ refresh plain_repr null_results_reply WriteOk (sample_state [])
     = (inl TypeError, sample_state []).
Proof.
  split.
  - exact (proj1 (refresh_escapes_on_unexpected_shape plain_repr 200 "" (JArr []) WriteOk
                    (sample_state []) eq_refl) eq_refl).
  - exact (proj2 (refresh_escapes_on_unexpected_shape plain_repr 200 ""
                    (JObj [("results", JNull)]) WriteOk (sample_state []) eq_refl)
             [("results", JNull)] JNull eq_refl eq_refl eq_refl).
Defined.

(** X5: [refresh] changes the Connection Set in memory only after it has
    written the file: whenever the Connection Set in memory after a run
    differs from the one before, the run returned, the success message was
    printed, the config file holds the document of the new Connection Set
    and reading the file gives that set. *)
Theorem refresh_changes_memory_only_after_write (py_repr : pyval -> string)
        (net : http_outcome) (wr : write_outcome) (st : state) :
  connections (snd (refresh py_repr net wr st)) <> connections st ->
  fst (refresh py_repr net wr st) = inr tt
  /\ trace (snd (refresh py_repr net wr st))
     = (trace st ++ [EPrint (GREEN ++ "Data updated successfully!")])%list
  /\ disk (snd (refresh py_repr net wr st))
     = FileJson (json_dump (connections (snd (refresh py_repr net wr st))))
  /\ json_load (json_dump (connections (snd (refresh py_repr net wr st))))
     = connections (snd (refresh py_repr net wr st)).
Proof.
  destruct (refresh_cases py_repr net wr st)
    as [[_ Hr] | [[r [_ [_ [_ Hr]]]] | [[e' [He Hr]] | [conns [Hc Hr]]]]];
    rewrite Hr; cbn [fst snd connections disk trace]; intros Hne.
  - congruence.
  - congruence.
  - congruence.
  - destruct wr; cbn [fst snd connections disk trace] in *; try congruence.
    repeat split.
    apply load_dump. exact (remote_connections_unique py_repr net conns Hc).
Qed.

Lemma refresh_changes_memory_only_after_write_witness :
  disk (snd (refresh plain_repr sample_net WriteOk (sample_state [])))
  = FileJson (JObj [("gamma@server",
                     json_dump (sample_record "gamma" "server" "ssh root@gamma" ""))])
  /\ fst (refresh plain_repr sample_net WriteOk (sample_state [])) = inr tt.
Proof.
  destruct (refresh_changes_memory_only_after_write plain_repr sample_net WriteOk
              (sample_state []) ltac:(discriminate)) as [H1 [_ [H3 _]]].
  split; [exact H3 | exact H1].
Defined.

(** X6: after a successful refresh a new start of the program loads from
    the config file exactly the Connection Set that [refresh] left in
    memory: [__init__] run in the state after the refresh changes
    nothing. *)
Theorem restart_after_refresh_restores_set (py_repr : pyval -> string)
        (net : http_outcome) (st : state) (conns : dict) :
  remote_connections py_repr net = inr conns ->
  init (snd (refresh py_repr net WriteOk st))
  = (inr tt, snd (refresh py_repr net WriteOk st))
  /\ connections (snd (refresh py_repr net WriteOk st)) = PDict conns.
Proof.
  intros H. rewrite (refresh_after_transform py_repr net WriteOk st conns H).
  cbn [snd]. split; [| reflexivity].
  unfold init, load_config, bind, set_connections, get_disk.
  cbn [connections disk stdin trace].
  now rewrite (load_dump (PDict conns) (remote_connections_unique py_repr net conns H)).
Qed.

Lemma restart_after_refresh_restores_set_witness :
  init (snd (refresh plain_repr sample_net WriteOk (sample_state [])))
  = (inr tt, snd (refresh plain_repr sample_net WriteOk (sample_state [])))
  /\ connections (snd (refresh plain_repr sample_net WriteOk (sample_state [])))
     = PDict [("gamma@server", sample_record "gamma" "server" "ssh root@gamma" "")].
Proof.
  exact (restart_after_refresh_restores_set plain_repr sample_net (sample_state []) _
           eq_refl).
Defined.

(** ** The dialogue of the list operation *)

Section Dialogue.

Variable py_repr : pyval -> string.

(** On a dict that is not empty and whose table can be built, the list
    operation prints the table and an empty line and enters the dialogue. *)
Lemma list_connections_enters_dialogue (m : dict) (d : file) (inp : list stdin_item)
      (tr : list event) (rows : list (list pyval)) :
  m <> [] ->
  build_table py_repr m 1 = inr rows ->
  list_connections py_repr (mkState (PDict m) d inp tr)
  = dialogue py_repr m
      (mkState (PDict m) d inp (tr ++ [ETable table_headers rows; EPrint ""])%list).
Proof.
  intros Hne Hrows.
  assert (Ht : py_truthy (PDict m) = true) by (destruct m; [congruence | reflexivity]).
  unfold list_connections, dialogue, bind at 1, get_connections.
  cbn [connections]. rewrite Ht.
  unfold bind at 1, lift at 1, py_items.
  unfold bind at 1, lift at 1. rewrite Hrows.
  unfold bind at 1, emit at 1. cbn [connections disk stdin trace].
  unfold bind at 1, print at 1, emit at 1. cbn [connections disk stdin trace].
  rewrite <- app_assoc. reflexivity.
Qed.

(** The dialogue after an answer that selects a record with a project and
    a type: the confirmation prompt is next. *)
Lemma dialogue_reaches_confirmation (m : dict) (d : file) (answer : string)
      (rest : list stdin_item) (tr : list event) (index : Z)
      (connection project type_ : pyval) :
  parse_int answer = Some index ->
  py_list_index (dict_values m) (index - 1) = inr connection ->
  py_getitem connection "project" = inr project ->
  py_getitem connection "type" = inr type_ ->
  dialogue py_repr m (mkState (PDict m) d (Line answer :: rest) tr)
  = try_except
      (confirm <- input (confirm_prompt py_repr project type_) ;;
       if String.eqb confirm "" then
         print executing_message ;;
         ssh_command <- lift (py_getitem connection "ssh_command") ;;
         os_system ssh_command
       else
         print canceled_message)%prog
      (fun e =>
         match e with
         | IndexError | ValueError => Some (print invalid_index_message)
         | KeyboardInterrupt => Some (print interrupted_message)
         | _ => None
         end)
      (mkState (PDict m) d rest (tr ++ [EInput select_prompt])%list).
Proof.
  intros Hparse Hidx Hp Ht.
  unfold dialogue, try_except.
  unfold bind at 1, input at 1. cbn [connections disk stdin trace].
  unfold bind at 1, lift at 1. rewrite (py_int_parsed _ _ Hparse).
  unfold bind at 1, lift at 1. rewrite Hidx.
  unfold bind at 1, lift at 1. rewrite Hp.
  unfold bind at 1, lift at 1. rewrite Ht.
  reflexivity.
Qed.

End Dialogue.

(** X7: an interrupt at the selection prompt is caught: the list operation
    prints the table, shows the prompt, prints "Operation canceled..." and
    returns; nothing runs and nothing else is asked. *)
Theorem interrupt_at_selection_cancels (py_repr : pyval -> string) (m : dict) (d : file)
        (rest : list stdin_item) (tr : list event) (rows : list (list pyval)) :
  m <> [] ->
  build_table py_repr m 1 = inr rows ->
  list_connections py_repr (mkState (PDict m) d (CtrlC :: rest) tr)
  = (inr tt, mkState (PDict m) d rest
               (tr ++ [ETable table_headers rows; EPrint ""; EInput select_prompt;
                       EPrint (RED ++ nl ++ "Operation canceled..." ++ nl)])%list).
Proof.
  intros Hne Hrows.
  rewrite (list_connections_enters_dialogue py_repr m d _ tr rows Hne Hrows).
  unfold dialogue, try_except, bind, input, print, emit.
  cbn [connections disk stdin trace]. rewrite <- !app_assoc. reflexivity.
Qed.

Lemma interrupt_at_selection_cancels_witness :
  executed (trace (snd (list_connections plain_repr (sample_state [CtrlC])))) = []
  /\ fst (list_connections plain_repr (sample_state [CtrlC])) = inr tt.
Proof.
  pose proof (interrupt_at_selection_cancels plain_repr sample_items
                (FileJson (json_dump sample_connections)) [] [] _
                ltac:(discriminate) eq_refl) as H.
  split; [exact (f_equal (fun out => executed (trace (snd out))) H)
         | exact (f_equal fst H)].
Defined.

(** X8: an interrupt at the confirmation prompt is caught in the same way:
    after the two prompts "Operation canceled..." is printed, the
    operation returns and no command is run. *)
Theorem interrupt_at_confirmation_cancels (py_repr : pyval -> string) (m : dict)
        (d : file) (answer : string) (rest : list stdin_item) (tr : list event)
        (rows : list (list pyval)) (index : Z) (connection project type_ : pyval) :
  m <> [] ->
  build_table py_repr m 1 = inr rows ->
  parse_int answer = Some index ->
  py_list_index (dict_values m) (index - 1) = inr connection ->
  py_getitem connection "project" = inr project ->
  py_getitem connection "type" = inr type_ ->
  list_connections py_repr (mkState (PDict m) d (Line answer :: CtrlC :: rest) tr)
  = (inr tt, mkState (PDict m) d rest
               (tr ++ [ETable table_headers rows; EPrint ""; EInput select_prompt;
                       EInput (confirm_prompt py_repr project type_);
                       EPrint (RED ++ nl ++ "Operation canceled..." ++ nl)])%list).
Proof.
  intros Hne Hrows Hparse Hidx Hp Ht.
  rewrite (list_connections_enters_dialogue py_repr m d _ tr rows Hne Hrows).
  rewrite (dialogue_reaches_confirmation py_repr m d answer _ _ index connection
             project type_ Hparse Hidx Hp Ht).
  unfold try_except, bind, input, print, emit.
  cbn [connections disk stdin trace]. rewrite <- !app_assoc. reflexivity.
Qed.

Lemma interrupt_at_confirmation_cancels_witness :
  executed (trace (snd (list_connections plain_repr (sample_state [Line "1"; CtrlC])))) = []
  /\ fst (list_connections plain_repr (sample_state [Line "1"; CtrlC])) = inr tt.
Proof.
  pose proof (interrupt_at_confirmation_cancels plain_repr sample_items
                (FileJson (json_dump sample_connections)) "1" [] [] _ 1 _ _ _
                ltac:(discriminate) eq_refl eq_refl eq_refl eq_refl eq_refl) as H.
  split; [exact (f_equal (fun out => executed (trace (snd out))) H)
         | exact (f_equal fst H)].
Defined.

(** X9: the end of the input is not handled: when the input ends at the
    selection prompt or at the confirmation prompt, EOFError leaves the
    list operation; no cancellation is printed and no command is run. *)
Theorem end_of_input_escapes (py_repr : pyval -> string) (m : dict) (d : file)
        (answer : string) (tr : list event) (rows : list (list pyval)) (index : Z)
        (connection project type_ : pyval) :
  m <> [] ->
  build_table py_repr m 1 = inr rows ->
  parse_int answer = Some index ->
  py_list_index (dict_values m) (index - 1) = inr connection ->
  py_getitem connection "project" = inr project ->
  py_getitem connection "type" = inr type_ ->
  list_connections py_repr (mkState (PDict m) d [] tr)
  = (inl EOFError, mkState (PDict m) d []
                     (tr ++ [ETable table_headers rows; EPrint "";
                             EInput select_prompt])%list)
  /\ list_connections py_repr (mkState (PDict m) d [Line answer] tr)
     = (inl EOFError, mkState (PDict m) d []
                        (tr ++ [ETable table_headers rows; EPrint ""; EInput select_prompt;
                                EInput (confirm_prompt py_repr project type_)])%list).
Proof.
  intros Hne Hrows Hparse Hidx Hp Ht. split.
  - rewrite (list_connections_enters_dialogue py_repr m d _ tr rows Hne Hrows).
    unfold dialogue, try_except, bind, input.
    cbn [connections disk stdin trace]. rewrite <- !app_assoc. reflexivity.
  - rewrite (list_connections_enters_dialogue py_repr m d _ tr rows Hne Hrows).
    rewrite (dialogue_reaches_confirmation py_repr m d answer _ _ index connection
               project type_ Hparse Hidx Hp Ht).
    unfold try_except, bind, input.
    cbn [connections disk stdin trace]. rewrite <- !app_assoc. reflexivity.
Qed.

Lemma end_of_input_escapes_witness :
  fst (list_connections plain_repr (sample_state [])) = inl EOFError
  /\ fst (list_connections plain_repr (sample_state [Line "2"])) = inl EOFError.
Proof.
  destruct (end_of_input_escapes plain_repr sample_items
              (FileJson (json_dump sample_connections)) "2" [] _ 2 _ _ _
              ltac:(discriminate) eq_refl eq_refl eq_refl eq_refl eq_refl) as [H1 H2].
  split; [exact (f_equal fst H1) | exact (f_equal fst H2)].
Defined.

(** X10: on a value in memory that is not a dict (a config file may hold
    any JSON value), the list operation prints "No SSH connections
    available." when the value is false (null, false, 0, an empty string
    or list) and raises AttributeError, having printed nothing, when it is
    true. *)
Theorem list_on_non_dict (py_repr : pyval -> string) (v : pyval) (d : file)
        (inp : list stdin_item) (tr : list event) :
  is_dict v = false ->
  list_connections py_repr (mkState v d inp tr)
  = if py_truthy v
    then (inl AttributeError, mkState v d inp tr)
    else (inr tt, mkState v d inp
                    (tr ++ [EPrint (YELLOW ++ "No SSH connections available.")])%list).
Proof.
  intros Hd. unfold list_connections, bind, get_connections, lift, py_items, print, emit.
  cbn [connections disk stdin trace].
  destruct v; try discriminate; destruct (py_truthy _); reflexivity.
Qed.

Lemma list_on_non_dict_witness :
  list_connections plain_repr (mkState (json_load (JArr [JInt 1])) FileAbsent [] [])
  = (inl AttributeError, mkState (PList [PInt 1]) FileAbsent [] [])
  /\ list_connections plain_repr (mkState (json_load JNull) FileAbsent [] [])
     = (inr tt, mkState PNone FileAbsent []
                  [EPrint (YELLOW ++ "No SSH connections available.")]).
Proof.
  split.
  - exact (list_on_non_dict plain_repr (PList [PInt 1]) FileAbsent [] [] eq_refl).
  - exact (list_on_non_dict plain_repr PNone FileAbsent [] [] eq_refl).
Defined.

Lemma py_getitem_error (v : pyval) (k : string) (e : exn) :
  py_getitem v k = inl e -> e = KeyError \/ e = TypeError.
Proof.
  destruct v as [ | | | | | | m]; simpl; intros H; try (injection H as <-; now right).
  destruct (dict_get k m); [discriminate | injection H as <-; now left].
Qed.

Lemma build_table_error (py_repr : pyval -> string) (m : dict) (idx : Z) (e : exn) :
  build_table py_repr m idx = inl e -> e = KeyError \/ e = TypeError.
Proof.
  revert idx. induction m as [|[name details] m IH]; intros idx; cbn [build_table].
  - discriminate.
  - destruct (py_getitem details "project") as [e1 | p] eqn:E1; cbn [rbind].
    { intros H. injection H as <-. exact (py_getitem_error _ _ _ E1). }
    destruct (py_getitem details "ssh_command") as [e2 | c] eqn:E2; cbn [rbind].
    { intros H. injection H as <-. exact (py_getitem_error _ _ _ E2). }
    destruct (py_getitem details "type") as [e3 | t] eqn:E3; cbn [rbind].
    { intros H. injection H as <-. exact (py_getitem_error _ _ _ E3). }
    destruct (py_getitem details "password") as [e4 | w] eqn:E4; cbn [rbind].
    { intros H. injection H as <-. exact (py_getitem_error _ _ _ E4). }
    destruct (build_table py_repr m (idx + 1)) as [e5 | rows] eqn:E5; cbn [rbind].
    + intros H. injection H as <-. exact (IH _ E5).
    + discriminate.
Qed.

(** X11: when a record of the Connection Set in memory lacks one of the
    four fields, or is not a dict, the list operation raises KeyError or
    TypeError before anything is printed: no table, no prompt, no
    command. *)
Theorem list_fails_before_printing (py_repr : pyval -> string) (m : dict) (d : file)
        (inp : list stdin_item) (tr : list event) (e : exn) :
  build_table py_repr m 1 = inl e ->
  list_connections py_repr (mkState (PDict m) d inp tr)
  = (inl e, mkState (PDict m) d inp tr)
  /\ (e = KeyError \/ e = TypeError).
Proof.
  intros H. split; [| exact (build_table_error py_repr m 1 e H)].
  assert (Ht : py_truthy (PDict m) = true)
    by (destruct m; [discriminate H | reflexivity]).
  unfold list_connections, bind, get_connections, lift, py_items.
  cbn [connections]. rewrite Ht, H. reflexivity.
Qed.

Lemma list_fails_before_printing_witness :
  list_connections plain_repr (mkState incomplete_connections FileAbsent [Line "1"] [])
  = (inl KeyError, mkState incomplete_connections FileAbsent [Line "1"] []).
Proof.
  exact (proj1 (list_fails_before_printing plain_repr incomplete_items FileAbsent
                  [Line "1"] [] KeyError eq_refl)).
Defined.

(** X12: a malformed config file stops every command at the start, the
    help included: [main] raises ValueError from [load_config] before it
    looks at its argument, nothing is printed, and the Connection Set in
    memory is the empty one [__init__] set first. *)
Theorem main_fails_on_malformed_config (py_repr : pyval -> string) (arg : option command)
        (net : http_outcome) (wr : write_outcome) (before : pyval)
        (inp : list stdin_item) (tr : list event) :
  main py_repr arg net wr (mkState before FileMalformed inp tr)
  = (inl ValueError, mkState (PDict []) FileMalformed inp tr).
Proof. destruct arg as [[ | | ] | ]; reflexivity. Qed.

(** ** The table and the selection *)

Section Table.

Variable py_repr : pyval -> string.

Lemma build_table_nth (m : dict) (idx : Z) (rows : list (list pyval)) (i : nat)
      (name : string) (details : pyval) :
  build_table py_repr m idx = inr rows ->
  nth_error m i = Some (name, details) ->
  exists project ssh_command type_ password,
    py_getitem details "project" = inr project
    /\ py_getitem details "ssh_command" = inr ssh_command
    /\ py_getitem details "type" = inr type_
    /\ py_getitem details "password" = inr password
    /\ nth_error rows i
       = Some [PInt (idx + Z.of_nat i); project; type_;
               PStr (CYAN ++ py_str py_repr ssh_command ++ RESET_ALL); password].
Proof.
  revert idx rows i. induction m as [|[name0 details0] m IH]; intros idx rows i.
  - intros _ H. destruct i; discriminate H.
  - cbn [build_table].
    destruct (py_getitem details0 "project") as [e | p] eqn:E1; [discriminate |].
    destruct (py_getitem details0 "ssh_command") as [e | c] eqn:E2; [discriminate |].
    destruct (py_getitem details0 "type") as [e | t] eqn:E3; [discriminate |].
    destruct (py_getitem details0 "password") as [e | w] eqn:E4; [discriminate |].
    cbn [rbind].
    destruct (build_table py_repr m (idx + 1)) as [e | rows'] eqn:E5; [discriminate |].
    cbn [rbind]. intros H. injection H as <-.
    destruct i as [|i]; cbn [nth_error].
    + intros H. injection H as <- <-. exists p, c, t, w.
      rewrite Z.add_0_r. now repeat split.
    + intros H. destruct (IH _ _ _ E5 H) as [p' [c' [t' [w' [H1 [H2 [H3 [H4 H5]]]]]]]].
      exists p', c', t', w'. repeat split; try assumption.
      rewrite H5. do 3 f_equal. lia.
Qed.

Lemma build_table_length (m : dict) (idx : Z) (rows : list (list pyval)) :
  build_table py_repr m idx = inr rows -> List.length rows = List.length m.
Proof.
  revert idx rows. induction m as [|[name details] m IH]; intros idx rows.
  - cbn [build_table]. intros H. now injection H as <-.
  - cbn [build_table].
    destruct (py_getitem details "project"); [discriminate |].
    destruct (py_getitem details "ssh_command"); [discriminate |].
    destruct (py_getitem details "type"); [discriminate |].
    destruct (py_getitem details "password"); [discriminate |].
    cbn [rbind].
    destruct (build_table py_repr m (idx + 1)) as [e | rows'] eqn:E; [discriminate |].
    cbn [rbind]. intros H. injection H as <-. simpl. f_equal. exact (IH _ _ E).
Qed.

Lemma nth_error_values (m : dict) (i : nat) (details : pyval) :
  nth_error (dict_values m) i = Some details ->
  exists name, nth_error m i = Some (name, details).
Proof.
  unfold dict_values. rewrite nth_error_map.
  destruct (nth_error m i) as [[name x] |]; simpl; [| discriminate].
  intros H. injection H as <-. now exists name.
Qed.

(** X13: the number the table shows beside a record is the number that
    selects it: for a selection in [1, size], the row with that number
    shows the fields of the very record [list(...)[index - 1]] returns,
    and the table has one row per record. *)
Theorem table_number_selects_shown_record (m : dict) (rows : list (list pyval))
        (index : Z) :
  build_table py_repr m 1 = inr rows ->
  1 <= index <= Z.of_nat (List.length m) ->
  List.length rows = List.length m
  /\ exists connection project ssh_command type_ password,
      py_list_index (dict_values m) (index - 1) = inr connection
      /\ py_getitem connection "project" = inr project
      /\ py_getitem connection "ssh_command" = inr ssh_command
      /\ py_getitem connection "type" = inr type_
      /\ py_getitem connection "password" = inr password
      /\ nth_error rows (Z.to_nat (index - 1))
         = Some [PInt index; project; type_;
                 PStr (CYAN ++ py_str py_repr ssh_command ++ RESET_ALL); password].
Proof.
  intros Hrows Hrange. split; [exact (build_table_length m 1 rows Hrows) |].
  destruct (py_list_index_accepted (dict_values m) (index - 1)) as [connection [Hidx Hnth]].
  { unfold accepted_index, dict_values. rewrite length_map.
    apply andb_true_iff. split; apply Z.leb_le; lia. }
  replace (index - 1 <? 0) with false in Hnth by (symmetry; apply Z.ltb_ge; lia).
  destruct (nth_error_values m _ connection Hnth) as [name Hm].
  destruct (build_table_nth m 1 rows _ name connection Hrows Hm)
    as [p [c [t [w [H1 [H2 [H3 [H4 H5]]]]]]]].
  exists connection, p, c, t, w. repeat split; try assumption.
  rewrite H5. do 3 f_equal. lia.
Qed.

(** Every record of a dict whose table can be built has the fields the
    dialogue reads. *)
Lemma build_table_fields (m : dict) (idx : Z) (rows : list (list pyval))
      (i : nat) (details : pyval) :
  build_table py_repr m idx = inr rows ->
  nth_error (dict_values m) i = Some details ->
  exists project ssh_command type_,
    py_getitem details "project" = inr project
    /\ py_getitem details "ssh_command" = inr ssh_command
    /\ py_getitem details "type" = inr type_.
Proof.
  intros Hrows Hnth. destruct (nth_error_values m i details Hnth) as [name Hm].
  destruct (build_table_nth m idx rows i name details Hrows Hm)
    as [p [c [t [w [H1 [H2 [H3 _]]]]]]].
  now exists p, c, t.
Qed.

(** Once the confirmation prompt is reached, it is the last prompt. *)
Lemma confirmation_is_last_prompt (connection project type_ ssh_command : pyval)
      (st : state) :
  py_getitem connection "ssh_command" = inr ssh_command ->
  prompts (trace (snd (try_except
      (confirm <- input (confirm_prompt py_repr project type_) ;;
       if String.eqb confirm "" then
         print executing_message ;;
         ssh_command <- lift (py_getitem connection "ssh_command") ;;
         os_system ssh_command
       else
         print canceled_message)%prog
      (fun e =>
         match e with
         | IndexError | ValueError => Some (print invalid_index_message)
         | KeyboardInterrupt => Some (print interrupted_message)
         | _ => None
         end) st)))
  = (prompts (trace st) ++ [confirm_prompt py_repr project type_])%list.
Proof.
  intros Hc. unfold try_except, bind, input, print, emit, lift. rewrite Hc.
  destruct (stdin st) as [|[confirm | | ] rest]; cbn [connections disk stdin trace snd].
  - rewrite prompts_app. reflexivity.
  - destruct (String.eqb confirm ""); cbn [connections disk stdin trace snd].
    + destruct ssh_command as [ | | | | cmd | | ]; cbn [os_system];
        try destruct (has_nul cmd);
        unfold emit, raise, print; cbn [snd connections disk stdin trace];
        rewrite ?prompts_app; simpl; rewrite ?app_nil_r; reflexivity.
    + rewrite !prompts_app. simpl. now rewrite app_nil_r.
  - rewrite !prompts_app. simpl. now rewrite app_nil_r.
  - rewrite prompts_app. reflexivity.
Qed.

(** X14: on a Connection Set that is not empty a selection typed in ASCII
    is accepted exactly when it reads as an integer from [1 - size] to
    [size]: then the confirmation prompt is shown, and it is the last
    prompt; in every other case the invalid-index report is printed and
    the operation returns. *)
Theorem selection_accepted_exactly_in_range (m : dict) (d : file) (answer : string)
        (rest : list stdin_item) (tr : list event) (rows : list (list pyval)) :
  m <> [] ->
  build_table py_repr m 1 = inr rows ->
  is_ascii answer = true ->
  ((exists index, parse_int answer = Some index
                  /\ 1 - Z.of_nat (List.length m) <= index <= Z.of_nat (List.length m))
   -> exists project type_,
        prompts (trace (snd (list_connections py_repr
                               (mkState (PDict m) d (Line answer :: rest) tr))))
        = (prompts tr
           ++ [("Enter the " ++ CYAN ++ "number" ++ RESET_ALL
                ++ " of the connection to run the SSH command: ")%string;
               ("Are you sure you want to run the command for " ++ YELLOW
                ++ py_str py_repr project ++ "@" ++ py_str py_repr type_ ++ RESET_ALL
                ++ "? Press Enter to confirm or Ctrl+C to cancel: ")%string])%list)
  /\ (~ (exists index, parse_int answer = Some index
                       /\ 1 - Z.of_nat (List.length m) <= index
                          <= Z.of_nat (List.length m))
      -> list_connections py_repr (mkState (PDict m) d (Line answer :: rest) tr)
         = (inr tt, mkState (PDict m) d rest
                      (tr ++ [ETable ["No"; "Project"; "Type"; "SSH Command"; "Password"]
                                rows;
                              EPrint "";
                              EInput ("Enter the " ++ CYAN ++ "number" ++ RESET_ALL
                                      ++ " of the connection to run the SSH command: ");
                              EPrint (RED ++ "Invalid index. Please enter a valid number.")])%list)).
Proof.
  intros Hne Hrows _.
  rewrite (list_connections_enters_dialogue py_repr m d _ tr rows Hne Hrows).
  split.
  - intros [index [Hparse Hrange]].
    destruct (py_list_index_accepted (dict_values m) (index - 1))
      as [connection [Hidx Hnth]].
    { unfold accepted_index, dict_values. rewrite length_map.
      apply andb_true_iff. split; apply Z.leb_le; lia. }
    destruct (build_table_fields m 1 rows _ connection Hrows Hnth)
      as [project [ssh_command [type_ [H1 [H2 H3]]]]].
    exists project, type_.
    rewrite (dialogue_reaches_confirmation py_repr m d answer rest _ index connection
               project type_ Hparse Hidx H1 H3).
    rewrite (confirmation_is_last_prompt connection project type_ ssh_command _ H2).
    cbn [trace]. rewrite !prompts_app. simpl. rewrite app_nil_r, <- app_assoc.
    reflexivity.
  - intros Hno.
    unfold dialogue, try_except, bind, input, lift, print, emit, py_int.
    cbn [connections disk stdin trace].
    destruct (parse_int answer) as [index |].
    + rewrite py_list_index_rejected.
      * cbn [connections disk stdin trace]. rewrite <- !app_assoc. reflexivity.
      * unfold dict_values. rewrite length_map.
        replace (index - 1 + 1) with index by lia.
        unfold accepted_index. apply andb_false_iff.
        destruct (Z_le_gt_dec (1 - Z.of_nat (List.length m)) index) as [Hl | Hl].
        -- right. apply Z.leb_gt.
           destruct (Z_le_gt_dec index (Z.of_nat (List.length m))) as [Hu | Hu]; [| lia].
           exfalso. apply Hno. exists index. split; [reflexivity | lia].
        -- left. apply Z.leb_gt. lia.
    + cbn [connections disk stdin trace]. rewrite <- !app_assoc. reflexivity.
Qed.

End Table.

Lemma table_number_selects_shown_record_witness :
  exists connection,
    py_list_index (dict_values sample_items) (2 - 1) = inr connection
    /\ py_getitem connection "project" = inr (PStr "beta")
    /\ nth_error [[PInt 1; PStr "alpha"; PStr "server";
                   PStr (CYAN ++ "ssh root@alpha" ++ RESET_ALL); PStr "pw1"];
                  [PInt 2; PStr "beta"; PStr "server";
                   PStr (CYAN ++ "ssh root@beta" ++ RESET_ALL); PStr ""]] 1
       = Some [PInt 2; PStr "beta"; PStr "server";
               PStr (CYAN ++ "ssh root@beta" ++ RESET_ALL); PStr ""].
Proof.
  destruct (table_number_selects_shown_record plain_repr sample_items _ 2 eq_refl
              ltac:(simpl; lia))
    as [_ [connection [p [c [t [w [H1 _]]]]]]].
  exists connection. split; [exact H1 |].
  simpl in H1. injection H1 as <-. split; reflexivity.
Defined.

Lemma selection_accepted_exactly_in_range_witness :
  (exists project type_,
      prompts (trace (snd (list_connections plain_repr (sample_state [Line "-1"]))))
      = [select_prompt; confirm_prompt plain_repr project type_])
  /\ fst (list_connections plain_repr (sample_state [Line "-2"; Line ""])) = inr tt.
Proof.
  split.
  - destruct (selection_accepted_exactly_in_range plain_repr sample_items
                (FileJson (json_dump sample_connections)) "-1" [] [] _
                ltac:(discriminate) eq_refl eq_refl) as [H _].
    apply H. exists (-1). split; [reflexivity | simpl; lia].
  - destruct (selection_accepted_exactly_in_range plain_repr sample_items
                (FileJson (json_dump sample_connections)) "-2" [Line ""] [] _
                ltac:(discriminate) eq_refl eq_refl) as [_ H].
    refine (f_equal fst (H _)).
    intros [index [Hp Hr]]. injection Hp as <-. simpl in Hr. lia.
Defined.

(** ** The entries [refresh] stores *)

Lemma lower_ascii_idempotent (c : ascii) : lower_ascii (lower_ascii c) = lower_ascii c.
Proof. destruct c as [[] [] [] [] [] [] [] []]; reflexivity. Qed.

Lemma lower_ascii_no_upper (c : ascii) :
  negb ((65 <=? nat_of_ascii (lower_ascii c)) && (nat_of_ascii (lower_ascii c) <=? 90))%nat
  = true.
Proof. destruct c as [[] [] [] [] [] [] [] []]; reflexivity. Qed.

Lemma lower_no_upper (s : string) : no_upper (lower s) = true.
Proof.
  induction s as [|c s IH]; cbn [lower no_upper]; [reflexivity |].
  now rewrite lower_ascii_no_upper, IH.
Qed.

Lemma lower_idempotent (s : string) : lower (lower s) = lower s.
Proof.
  induction s as [|c s IH]; simpl; [reflexivity |].
  now rewrite lower_ascii_idempotent, IH.
Qed.

Lemma extract_type_lower (properties : pyval) (t : string) :
  extract_type properties = inr t -> lower t = t.
Proof.
  unfold extract_type.
  destruct (py_get properties "Type" (PDict [])) as [e | p]; [discriminate |].
  cbn [rbind].
  destruct (py_get p "select" (PDict [])) as [e | sel]; [discriminate |].
  cbn [rbind].
  destruct (py_truthy sel).
  - destruct (py_get sel "name" (PStr "")) as [e | name]; [discriminate |].
    cbn [rbind]. destruct name; simpl; try discriminate.
    intros H. injection H as <-. apply lower_idempotent.
  - intros H. now injection H as <-.
Qed.

Lemma extract_fields_lower (page : pyval) (f : fields) :
  extract_fields page = inr f -> lower (f_type f) = f_type f.
Proof.
  unfold extract_fields.
  destruct (py_get page "properties" (PDict [])) as [e | props]; [discriminate |].
  cbn [rbind].
  destruct (extract_text props "Project" "title"); [discriminate |]. cbn [rbind].
  destruct (extract_text props "SSH" "rich_text"); [discriminate |]. cbn [rbind].
  destruct (extract_type props) as [e | t] eqn:E; [discriminate |]. cbn [rbind].
  destruct (extract_text props "password" "rich_text"); [discriminate |]. cbn [rbind].
  intros H. injection H as <-. exact (extract_type_lower props t E).
Qed.

Lemma extract_all_In (pages : list pyval) (fs : list fields) (f : fields) :
  extract_all pages = inr fs -> In f fs ->
  exists page, In page pages /\ extract_fields page = inr f.
Proof.
  revert fs. induction pages as [|page rest IH]; intros fs; cbn [extract_all].
  - intros H. injection H as <-. intros [].
  - destruct (extract_fields page) as [e | f0] eqn:E; [discriminate |]. cbn [rbind].
    destruct (extract_all rest) as [e | fs'] eqn:E'; [discriminate |]. cbn [rbind].
    intros H. injection H as <-. intros [<- | Hin].
    + exists page. split; [now left | exact E].
    + destruct (IH fs' eq_refl Hin) as [page' [H1 H2]].
      exists page'. split; [now right | exact H2].
Qed.

Lemma dict_set_In (k : string) (v : pyval) (m : dict) (kv : string * pyval) :
  In kv (dict_set k v m) -> kv = (k, v) \/ In kv m.
Proof.
  induction m as [|[k0 v0] m IH]; simpl.
  - intros [H | []]. now left.
  - destruct (String.eqb k k0); simpl.
    + intros [H | H]; [now left | right; now right].
    + intros [H | H]; [right; now left |].
      destruct (IH H) as [H' | H']; [now left | right; now right].
Qed.

Lemma set_all_In (l acc : dict) (kv : string * pyval) :
  In kv (set_all l acc) -> In kv acc \/ In kv l.
Proof.
  revert acc. induction l as [|[k0 v0] l IH]; intros acc.
  - now left.
  - rewrite set_all_cons. intros H. destruct (IH _ H) as [H' | H'].
    + destruct (dict_set_In _ _ _ _ H') as [-> | H'']; [right; now left | now left].
    + right. now right.
Qed.

Lemma mem_string_app (x : string) (l1 l2 : list string) :
  mem_string x (l1 ++ l2) = mem_string x l1 || mem_string x l2.
Proof.
  induction l1 as [|k l1 IH]; simpl; [reflexivity |].
  now rewrite IH, orb_assoc.
Qed.

Lemma first_occurrences_ext (s1 s2 l : list string) :
  (forall x, mem_string x s1 = mem_string x s2) ->
  first_occurrences s1 l = first_occurrences s2 l.
Proof.
  revert s1 s2. induction l as [|k l IH]; intros s1 s2 H; simpl; [reflexivity |].
  rewrite (H k). destruct (mem_string k s2).
  - now apply IH.
  - f_equal. apply IH. intros x. simpl. now rewrite (H x).
Qed.

Lemma set_all_keys (l acc : dict) :
  map fst (set_all l acc)
  = (map fst acc ++ first_occurrences (map fst acc) (map fst l))%list.
Proof.
  revert acc. induction l as [|[k v] l IH]; intros acc.
  - simpl. now rewrite app_nil_r.
  - rewrite set_all_cons, IH, dict_set_keys. cbn [fst snd map first_occurrences].
    destruct (mem_string k (map fst acc)) eqn:E.
    + reflexivity.
    + rewrite <- app_assoc. cbn [app]. do 2 f_equal.
      apply first_occurrences_ext. intros x.
      rewrite mem_string_app. simpl. rewrite orb_false_r. apply orb_comm.
Qed.

Section Stored.

Variable py_repr : pyval -> string.

(** X15: when the names of the select fields of the pages are ASCII text,
    every entry [refresh] stores comes from a page of the reply: its key
    is [project@type] of the fields of that page, its record has exactly
    the fields type, project, ssh_command and password, in that order, and
    the type holds no letter from A to Z. *)
Theorem stored_entries_come_from_pages (pages : list pyval) (conns : dict)
        (k : string) (r : pyval) :
  forallb ascii_type pages = true ->
  build_connections py_repr pages [] = inr conns ->
  In (k, r) conns ->
  exists page f,
    In page pages
    /\ extract_fields page = inr f
    /\ k = py_str py_repr (f_project f) ++ "@" ++ f_type f
    /\ r = PDict [("type", PStr (f_type f)); ("project", f_project f);
                  ("ssh_command", f_ssh f); ("password", f_password f)]
    /\ no_upper (f_type f) = true.
Proof.
  intros _ H Hin. apply build_connections_set_all in H. destruct H as [fs [Hfs ->]].
  apply set_all_In in Hin. destruct Hin as [[] | Hin].
  apply in_map_iff in Hin. destruct Hin as [f [Hf Hin]].
  destruct (extract_all_In pages fs f Hfs Hin) as [page [Hp He]].
  exists page, f. unfold entry_of, connection_key, connection_record in Hf.
  injection Hf as <- <-. repeat split; try assumption.
  rewrite <- (extract_fields_lower page f He). apply lower_no_upper.
Qed.

(** The table of what the loop of [refresh] built can always be built: no
    record lacks a field, and the table has one row per entry. *)
Lemma built_connections_table (pages : list pyval) (conns : dict) :
  build_connections py_repr pages [] = inr conns ->
  exists rows, build_table py_repr conns 1 = inr rows
               /\ List.length rows = List.length conns.
Proof.
  intros H.
  assert (Hrec : forall kv, In kv conns -> exists f, snd kv = connection_record f).
  { apply build_connections_set_all in H. destruct H as [fs [_ ->]].
    intros kv Hin. apply set_all_In in Hin. destruct Hin as [[] | Hin].
    apply in_map_iff in Hin. destruct Hin as [f [<- _]]. now exists f. }
  clear H. generalize 1. induction conns as [|[k r] conns IH]; intros idx.
  - exists []. now split.
  - destruct (Hrec (k, r) (or_introl eq_refl)) as [f Hf]. cbn [snd] in Hf. subst r.
    destruct (IH (fun kv Hin => Hrec kv (or_intror Hin)) (idx + 1)) as [rows [Hrows Hlen]].
    cbn [build_table]. unfold connection_record at 1 2 3 4. cbn [py_getitem dict_get].
    simpl String.eqb. cbn [rbind]. rewrite Hrows. cbn [rbind].
    eexists. split; [reflexivity |]. simpl. now rewrite Hlen.
Qed.

(** X16: the Connection Set keeps the order of the reply: its keys are the
    keys of the pages in the order in which each key first occurs. *)
Theorem stored_order_is_first_occurrence (pages : list pyval) (conns : dict) :
  build_connections py_repr pages [] = inr conns ->
  exists fs,
    extract_all pages = inr fs
    /\ dict_keys conns = first_occurrences [] (map (connection_key py_repr) fs).
Proof.
  intros H. apply build_connections_set_all in H. destruct H as [fs [Hfs ->]].
  exists fs. split; [exact Hfs |].
  unfold dict_keys. rewrite set_all_keys, entries_keys. reflexivity.
Qed.

End Stored.

Lemma stored_entries_come_from_pages_witness :
  exists page f,
    In page sample_pages
    /\ extract_fields page = inr f
    /\ "alpha@server" = py_str plain_repr (f_project f) ++ "@" ++ f_type f
    /\ f_ssh f = PStr "ssh three".
Proof.
  destruct (stored_entries_come_from_pages plain_repr sample_pages _ "alpha@server"
              (sample_record "alpha" "server" "ssh three" "") eq_refl eq_refl
              (or_introl eq_refl)) as [page [f [H1 [H2 [H3 [H4 _]]]]]].
  exists page, f. repeat split; try assumption.
  injection H4 as _ _ H4 _. now symmetry.
Defined.

Lemma stored_order_is_first_occurrence_witness :
  exists fs,
    extract_all sample_pages = inr fs
    /\ ["alpha@server"; "beta@db"]
       = first_occurrences [] (map (connection_key plain_repr) fs).
Proof.
  exact (stored_order_is_first_occurrence plain_repr sample_pages _ eq_refl).
Defined.

(** ** A refresh and the next list *)

Lemma remote_connections_pages (py_repr : pyval -> string) (net : http_outcome)
      (conns : dict) :
  remote_connections py_repr net = inr conns ->
  exists pages, build_connections py_repr pages [] = inr conns.
Proof.
  destruct net as [msg | r]; simpl; [discriminate |].
  destruct ((400 <=? status_code r) && (status_code r <? 600)); [discriminate |].
  destruct (response_json r) as [e | j]; [discriminate |]. cbn [rbind].
  destruct (py_get j "results" (PList [])) as [e | results]; [discriminate |].
  cbn [rbind].
  destruct (py_iter results) as [e | pages]; [discriminate |]. cbn [rbind].
  intros H. now exists pages.
Qed.

(** X17: what a successful [refresh] command stored is what the next
    [list] command works on: when the config file was not malformed and
    the reply gives a Connection Set, [main] with [refresh] returns, and
    [main] with [list] started on the file it left behaves as the list
    operation on exactly that Connection Set, whose table can be built
    with one row per entry. *)
Theorem list_after_refresh_shows_stored_set (py_repr : pyval -> string)
        (net net' : http_outcome) (wr' : write_outcome) (st : state) (conns : dict)
        (before : pyval) (inp : list stdin_item) (tr : list event) :
  disk st <> FileMalformed ->
  remote_connections py_repr net = inr conns ->
  fst (main py_repr (Some CmdRefresh) net WriteOk st) = inr tt
  /\ disk (snd (main py_repr (Some CmdRefresh) net WriteOk st))
     = FileJson (json_dump (PDict conns))
  /\ main py_repr (Some CmdList) net' wr'
       (mkState before (FileJson (json_dump (PDict conns))) inp tr)
     = list_connections py_repr
         (mkState (PDict conns) (FileJson (json_dump (PDict conns))) inp tr)
  /\ exists rows, build_table py_repr conns 1 = inr rows
                  /\ List.length rows = List.length conns.
Proof.
  intros Hdisk Hremote.
  assert (Hrun : forall s,
    refresh py_repr net WriteOk s
    = (inr tt, mkState (PDict conns) (FileJson (json_dump (PDict conns))) (stdin s)
                 (trace s ++ [EPrint success_message])%list)).
  { intros s. exact (refresh_after_transform py_repr net WriteOk s conns Hremote). }
  assert (Hmain : main py_repr (Some CmdRefresh) net WriteOk st
                  = (inr tt, mkState (PDict conns) (FileJson (json_dump (PDict conns)))
                               (stdin st) (trace st ++ [EPrint success_message])%list)).
  { unfold main, init, load_config, bind at 1 2 3, set_connections, get_disk.
    cbn [connections disk stdin trace].
    destruct (disk st) as [ | doc | ]; [| | congruence];
      cbn [connections disk stdin trace]; rewrite Hrun; reflexivity. }
  rewrite Hmain. split; [reflexivity |]. split; [reflexivity |]. split.
  - unfold main, init, load_config, bind at 1 2 3, set_connections, get_disk.
    cbn [connections disk stdin trace].
    now rewrite (load_dump (PDict conns) (remote_connections_unique py_repr net conns Hremote)).
  - destruct (remote_connections_pages py_repr net conns Hremote) as [pages Hpages].
    exact (built_connections_table py_repr pages conns Hpages).
Qed.

Lemma list_after_refresh_shows_stored_set_witness :
  main plain_repr (Some CmdList) sample_net WriteOk
    (mkState PNone (disk (snd (main plain_repr (Some CmdRefresh) sample_net WriteOk
                                 (sample_state [])))) [CtrlC] [])
  = list_connections plain_repr
      (mkState (PDict [("gamma@server", sample_record "gamma" "server" "ssh root@gamma" "")])
         (FileJson (JObj [("gamma@server",
                           json_dump (sample_record "gamma" "server" "ssh root@gamma" ""))]))
         [CtrlC] []).
Proof.
  destruct (list_after_refresh_shows_stored_set plain_repr sample_net sample_net WriteOk
              (sample_state []) _ PNone [CtrlC] [] ltac:(discriminate) eq_refl)
    as [_ [H2 [H3 _]]].
  rewrite H2. exact H3.
Defined.
